(** * MGAWhatsApp: the channel lifecycle manager and the message service

    A shallow embedding of [src/sessions/manager.js] (class [SessionManager],
    all methods but [getAllChannels] and [testConnection]), of the create,
    regenerate and delete routes of [src/routes/channels.routes.js], of the
    text route of [src/routes/messages.routes.js], of [sendTextMessage],
    [checkNumber] and the helpers of [src/services/whatsapp.service.js], of
    the API key middleware of [src/app.js] and of [getChannelLogs] of
    [src/utils/logger.js].

    The two singleton objects of the program ([sessionManager] and the
    [WhatsAppService] instance) keep their state in JS [Map]s and a [Set];
    here they are the fields of one record [World], next to the part of the
    environment the methods read or write: the credential folders on disk,
    the pending [setTimeout] callbacks, the logger's output, the calls made
    on socket handles, and the clock.  A method is a function in the monad
    [M] (state passing plus a thrown JS error).  Each method runs without
    interleaving: an [await] is modelled as a step of the same run, and the
    one place where the program really suspends for outside input (the
    15 s race of [createChannel]) is split into the part before and the part
    after the wait, with what the rest of the process does in between as a
    list of actions. *)

From Stdlib Require Import ZArith String Ascii List Lia Bool.
From stdpp Require Import gmap strings list fin_maps pretty.

Local Open Scope string_scope.
Local Open Scope Z_scope.

(** ** JavaScript strings *)

Module JsString.

(** [\D] of a JS regular expression: every code unit outside ['0'..'9']. *)
Definition is_digit (c : ascii) : bool :=
  ((48 <=? nat_of_ascii c) && (nat_of_ascii c <=? 57))%nat.

(** [s.replace(/\D/g, '')] *)
Fixpoint remove_non_digits (s : string) : string :=
  match s with
  | EmptyString => EmptyString
  | String c rest =>
      if is_digit c then String c (remove_non_digits rest)
      else remove_non_digits rest
  end.

(** [s.startsWith(p)] *)
Fixpoint startsWith (p s : string) : bool :=
  match p with
  | EmptyString => true
  | String a p' =>
      match s with
      | EmptyString => false
      | String b s' => if Ascii.eqb a b then startsWith p' s' else false
      end
  end.

(** [s.includes(sub)] *)
Fixpoint includes (sub s : string) : bool :=
  startsWith sub s ||
  match s with
  | EmptyString => false
  | String _ s' => includes sub s'
  end.

(** a number or [undefined] inside a template literal *)
Definition of_number (x : option Z) : string :=
  match x with
  | Some z => pretty z
  | None => "undefined"
  end.

(** a boolean inside a template literal *)
Definition of_bool (b : bool) : string :=
  if b then "true" else "false".

(** truthiness of a string value: only [''] is falsy *)
Definition truthy (s : string) : bool :=
  match s with EmptyString => false | _ => true end.

End JsString.

(** ** whatsapp.service.js: [formatWhatsAppNumber] (the returned value; the
    [logger.debug] line of the method is emitted by [formatWhatsAppNumberM]
    below) *)

Definition formatWhatsAppNumber (number : string) : string :=
  let cleanNumber := JsString.remove_non_digits number in
  let cleanNumber :=
    if negb (JsString.startsWith "55" cleanNumber)
    then "55" ++ cleanNumber
    else cleanNumber in
  cleanNumber ++ "@s.whatsapp.net".

(** What the documentation of the method calls the digits of the input:
    the characters ['0'..'9'] of the input, in order. *)
Definition digits_of (n : string) : string :=
  string_of_list_ascii (List.filter JsString.is_digit (list_ascii_of_string n)).

(** ** Data model *)

(** The values the [status] field of a channel takes in manager.js. *)
Inductive Status :=
| CREATED | CONNECTING | QRCODE | CONNECTED
| RECONNECTING | LOGGED_OUT | FAILED | RESTORING.

Global Instance Status_eq_dec : EqDecision Status.
Proof. solve_decision. Defined.

(** The [qrCode] field: missing from the object ([undefined]), [null], or
    the data URL produced by [QRCode.toDataURL]. *)
Inductive QrValue :=
| QrUndefined
| QrNull
| QrData (url : string).

(** A value of the [channels] map.  Every [channels.set] of the program
    writes [status] and [lastSeen]; [qrCode] and [reconnectAttempts] are
    present only once some [set] has written them ([None] is [undefined]). *)
Record Channel := mkChannel {
  status : Status;
  qrCode : QrValue;
  lastSeen : Z;
  reconnectAttempts : option Z
}.

(** A thrown JS [Error]: its [message]. *)
Record JsError := mkError { message : string }.

Inductive Result (A : Type) :=
| Ok (a : A)
| Throw (e : JsError).
Arguments Ok {A} a.
Arguments Throw {A} e.

(** First element of the array [socket.onWhatsApp] resolves to. *)
Record OnWhatsApp := mkOnWhatsApp { wa_exists : bool; wa_jid : string }.

(** The handle returned by [makeWASocket], as far as the program uses it:
    [user] ([None] when not authenticated) and the outcome of each call the
    program makes on it.  [sendMessage] resolves to [Some id] (a result with
    [key.id]) or to [None] ([undefined]). *)
Record Socket := mkSocket {
  sock_user : option string;
  sock_logout : Result unit;
  sock_end : Result unit;
  sock_onWhatsApp : string -> Result (option OnWhatsApp);
  sock_sendMessage : string -> string -> Result (option string)
}.

(** A value of the [sessions] map: [{ socket, saveCreds }]; [saveCreds] is
    the callback of [useMultiFileAuthState], named by the folder it writes. *)
Record Session := mkSession { socket : Socket; saveCreds : string }.

(** The promise behind an entry [{ resolve, reject }] of [qrPromises]. *)
Inductive PromiseState :=
| Pending
| Resolved
| Rejected (e : JsError).

(** A callback handed to [setTimeout] by the reconnect branch. *)
Record Timer := mkTimer { timer_delay : Z; timer_channel : string }.

Inductive Level := LInfo | LWarn | LError | LDebug.

(** One call of the logger: level, text, and the extra argument if any.
    The text is the message with the channel id and the strings it
    interpolates; an error passed along is kept as its message in [log_arg];
    whole objects and stack traces printed after a message are left out. *)
Record LogEntry := mkLog { log_level : Level; log_text : string; log_arg : option string }.

(** A call made on a socket handle. *)
Inductive SocketCall :=
| CallEnd (channelId : string)
| CallLogout (channelId : string)
| CallOnWhatsApp (channelId jid : string)
| CallSendMessage (channelId jid text : string).

(** The four collections of [SessionManager], [lastMessageTime] of
    [WhatsAppService], and the environment. *)
Record World := mkWorld {
  sessions : gmap string Session;
  channels : gmap string Channel;
  qrPromises : gmap string PromiseState;
  connectingChannels : gset string;
  lastMessageTime : gmap string Z;
  (** [src/channels/<id>] exists *)
  channelDirs : gset string;
  (** [src/channels/<id>/auth_info] exists; the value tells whether the
      stored credentials have [creds.me.id].  Both folder collections are
      keyed by the channel id, each id standing for its own folder: ids
      that [path.join] sends to one folder, or to a folder inside that of
      another id, are not told apart here: what a call that writes a
      folder does to the folders of other ids is not modelled. *)
  authStore : gmap string bool;
  timers : list Timer;
  log : list LogEntry;
  wire : list SocketCall;
  clock : Z
}.

(** The collaborators of manager.js that are not part of the repository. *)
Record Provider := mkProvider {
  (** [fs.mkdirSync(channelPath, { recursive: true })] of [createChannel],
      for the channel id: the file system may refuse the name *)
  mkdirSync : string -> Result unit;
  (** [QRCode.toDataURL] *)
  toDataURL : string -> Result string;
  (** [useMultiFileAuthState(authPath)]: fails, or yields the state *)
  useMultiFileAuthState : string -> Result unit;
  (** [fetchLatestBaileysVersion()], the version printed with [join('.')] *)
  fetchLatestBaileysVersion : Result string;
  (** [makeWASocket(config)] for the channel *)
  makeWASocket : string -> Result Socket
}.

(** [DisconnectReason.loggedOut] of the Baileys library. *)
Definition loggedOut : Z := 401.

(** ** Field updates *)

Definition set_sessions (f : gmap string Session -> gmap string Session) (w : World) : World :=
  mkWorld (f (sessions w)) (channels w) (qrPromises w) (connectingChannels w)
    (lastMessageTime w) (channelDirs w) (authStore w) (timers w) (log w) (wire w) (clock w).

Definition set_channels (f : gmap string Channel -> gmap string Channel) (w : World) : World :=
  mkWorld (sessions w) (f (channels w)) (qrPromises w) (connectingChannels w)
    (lastMessageTime w) (channelDirs w) (authStore w) (timers w) (log w) (wire w) (clock w).

Definition set_qrPromises (f : gmap string PromiseState -> gmap string PromiseState) (w : World) : World :=
  mkWorld (sessions w) (channels w) (f (qrPromises w)) (connectingChannels w)
    (lastMessageTime w) (channelDirs w) (authStore w) (timers w) (log w) (wire w) (clock w).

Definition set_connectingChannels (f : gset string -> gset string) (w : World) : World :=
  mkWorld (sessions w) (channels w) (qrPromises w) (f (connectingChannels w))
    (lastMessageTime w) (channelDirs w) (authStore w) (timers w) (log w) (wire w) (clock w).

Definition set_lastMessageTime (f : gmap string Z -> gmap string Z) (w : World) : World :=
  mkWorld (sessions w) (channels w) (qrPromises w) (connectingChannels w)
    (f (lastMessageTime w)) (channelDirs w) (authStore w) (timers w) (log w) (wire w) (clock w).

Definition set_channelDirs (f : gset string -> gset string) (w : World) : World :=
  mkWorld (sessions w) (channels w) (qrPromises w) (connectingChannels w)
    (lastMessageTime w) (f (channelDirs w)) (authStore w) (timers w) (log w) (wire w) (clock w).

Definition set_authStore (f : gmap string bool -> gmap string bool) (w : World) : World :=
  mkWorld (sessions w) (channels w) (qrPromises w) (connectingChannels w)
    (lastMessageTime w) (channelDirs w) (f (authStore w)) (timers w) (log w) (wire w) (clock w).

Definition set_timers (f : list Timer -> list Timer) (w : World) : World :=
  mkWorld (sessions w) (channels w) (qrPromises w) (connectingChannels w)
    (lastMessageTime w) (channelDirs w) (authStore w) (f (timers w)) (log w) (wire w) (clock w).

Definition set_log (f : list LogEntry -> list LogEntry) (w : World) : World :=
  mkWorld (sessions w) (channels w) (qrPromises w) (connectingChannels w)
    (lastMessageTime w) (channelDirs w) (authStore w) (timers w) (f (log w)) (wire w) (clock w).

Definition set_wire (f : list SocketCall -> list SocketCall) (w : World) : World :=
  mkWorld (sessions w) (channels w) (qrPromises w) (connectingChannels w)
    (lastMessageTime w) (channelDirs w) (authStore w) (timers w) (log w) (f (wire w)) (clock w).

Definition set_clock (f : Z -> Z) (w : World) : World :=
  mkWorld (sessions w) (channels w) (qrPromises w) (connectingChannels w)
    (lastMessageTime w) (channelDirs w) (authStore w) (timers w) (log w) (wire w) (f (clock w)).

(** ** The monad of methods: state passing, with a thrown error *)

Definition M (A : Type) : Type := World -> World * Result A.

Definition ret {A} (a : A) : M A := fun w => (w, Ok a).

Definition throw {A} (e : JsError) : M A := fun w => (w, Throw e).

Definition bind {A B} (m : M A) (k : A -> M B) : M B :=
  fun w =>
    match m w with
    | (w', Ok a) => k a w'
    | (w', Throw e) => (w', Throw e)
    end.

(** [try { body } catch (error) { handler }] *)
Definition try_catch {A} (body : M A) (handler : JsError -> M A) : M A :=
  fun w =>
    match body w with
    | (w', Ok a) => (w', Ok a)
    | (w', Throw e) => handler e w'
    end.

(** [try { body } finally { cleanup }], also run when [body] returns early;
    no [cleanup] of the program throws. *)
Definition try_finally {A} (body : M A) (cleanup : World -> World) : M A :=
  fun w =>
    match body w with
    | (w', r) => (cleanup w', r)
    end.

(** a statement that only changes the state *)
Definition modify (f : World -> World) : M unit := fun w => (f w, Ok tt).

(** a value read from the state *)
Definition gets {A} (f : World -> A) : M A := fun w => (w, Ok (f w)).

(** the outcome of a call on a collaborator *)
Definition lift {A} (r : Result A) : M A := fun w => (w, r).

Notation "x <- m ;; k" := (bind m (fun x => k))
  (at level 90, m at level 89, right associativity).
Notation "m ;;; k" := (bind m (fun _ => k))
  (at level 90, right associativity).

Definition logger (lvl : Level) (text : string) (arg : option string) : M unit :=
  modify (set_log (fun l => (l ++ [mkLog lvl text arg])%list)).

(** [await new Promise(resolve => setTimeout(resolve, ms))] *)
Definition sleep (ms : Z) : M unit := modify (set_clock (fun t => t + ms)).

Definition call (c : SocketCall) : M unit :=
  modify (set_wire (fun l => (l ++ [c])%list)).

(** ** sessions/manager.js *)

(** The [connection] field of a [connection.update] event. *)
Inductive Connection := ConnClose | ConnOpen | ConnConnecting.

(** A [connection.update] event as the handler destructures it:
    [connection], [lastDisconnect?.error?.output?.statusCode], [qr]. *)
Record Update := mkUpdate {
  connection : option Connection;
  statusCode : option Z;
  qr : option string
}.

(** What [createChannel] and [regenerateQRCode] return. *)
Record ChannelData := mkChannelData {
  cd_channelId : string;
  cd_status : option Status;
  cd_qrCode : QrValue
}.

(** [{ ...channel }] for a [channel] that may be [undefined]: the fields a
    later [set] keeps when it does not write them itself. *)
Definition prior_qrCode (channel : option Channel) : QrValue :=
  match channel with
  | Some c => qrCode c
  | None => QrUndefined
  end.

Definition prior_attempts (channel : option Channel) : option Z :=
  match channel with
  | Some c => reconnectAttempts c
  | None => None
  end.

(** [x || 0] for a number or [undefined] *)
Definition or_zero (x : option Z) : Z :=
  match x with
  | Some n => if n =? 0 then 0 else n
  | None => 0
  end.

(** [qrPromise.resolve()] / [qrPromise.reject(error)]: a promise settles
    once. *)
Definition settle (outcome : PromiseState) (p : PromiseState) : PromiseState :=
  match p with
  | Pending => outcome
  | _ => p
  end.

(** [const qrPromise = this.qrPromises.get(channelId); if (qrPromise) ...] *)
Definition settle_qrPromise (channelId : string) (outcome : PromiseState) : M unit :=
  modify (set_qrPromises (alter (settle outcome) channelId)).

(** [this.channels.set(channelId, c)] where [c] is built from the current
    entry and the current time *)
Definition channels_set (channelId : string) (mk : option Channel -> Z -> Channel) : M unit :=
  modify (fun w => set_channels (insert channelId (mk (channels w !! channelId) (clock w))) w).

Definition getChannelStatus (w : World) (channelId : string) : option (string * Channel) :=
  match channels w !! channelId with
  | None => None
  | Some c => Some (channelId, c)
  end.

Definition getSocket (w : World) (channelId : string) : option Socket :=
  match sessions w !! channelId with
  | Some s => Some (socket s)
  | None => None
  end.

Definition isChannelConnected (w : World) (channelId : string) : bool :=
  match channels w !! channelId with
  | Some channel => bool_decide (status channel = CONNECTED)
  | None => false
  end.

Section Manager.

Context (P : Provider).

Definition handleQRCode (channelId qr : string) : M unit :=
  try_catch
    (qrCodeDataURL <- lift (toDataURL P qr) ;;
     channels_set channelId (fun channel now =>
       {| status := QRCODE;
          qrCode := QrData qrCodeDataURL;
          lastSeen := now;
          reconnectAttempts := prior_attempts channel |}) ;;;
     logger LInfo ("✅ QR Code pronto para canal " ++ channelId) None ;;;
     settle_qrPromise channelId Resolved)
    (fun error =>
     logger LError ("Erro ao processar QR Code " ++ channelId ++ ":") (Some (message error)) ;;;
     settle_qrPromise channelId (Rejected error)).

Definition initializeSession (channelId : string) (forceNew : bool) : M unit :=
  try_finally
    (try_catch
       (connecting <- gets (fun w => bool_decide (channelId ∈ connectingChannels w)) ;;
        if connecting then
          logger LInfo ("Canal " ++ channelId ++ " já está sendo inicializado") None
        else
          modify (set_connectingChannels (fun s => {[channelId]} ∪ s)) ;;;
          existingSession <- gets (fun w => sessions w !! channelId) ;;
          match existingSession with
          | Some s =>
              try_catch
                (call (CallEnd channelId) ;;;
                 lift (sock_end (socket s)) ;;;
                 sleep 1000)
                (fun error =>
                 logger LDebug ("Erro ao fechar sessão anterior: " ++ message error) None)
          | None => ret tt
          end ;;;
          modify (set_sessions (delete channelId)) ;;;
          authExists <- gets (fun w => bool_decide (is_Some (authStore w !! channelId))) ;;
          (if forceNew && authExists then
             logger LInfo ("Limpando autenticação do canal " ++ channelId) None ;;;
             modify (set_authStore (delete channelId)) ;;;
             sleep 500
           else ret tt) ;;;
          lift (useMultiFileAuthState P channelId) ;;;
          modify (set_channelDirs (fun s => {[channelId]} ∪ s)) ;;;
          modify (set_authStore (fun a =>
            match a !! channelId with
            | Some _ => a
            | None => <[channelId := false]> a
            end)) ;;;
          hasValidAuth <- gets (fun w => bool_decide (authStore w !! channelId = Some true)) ;;
          logger LInfo ("Inicializando " ++ channelId ++ " - Auth existente: "
                        ++ (if hasValidAuth then "Sim" else "Não")) None ;;;
          version <- lift (fetchLatestBaileysVersion P) ;;
          logger LInfo ("Usando WhatsApp Web versão: " ++ version) None ;;;
          socket <- lift (makeWASocket P channelId) ;;
          modify (set_sessions (insert channelId (mkSession socket channelId))) ;;;
          logger LInfo ("Sessão inicializada para canal " ++ channelId) None)
       (fun error =>
        logger LError ("Erro ao inicializar sessão " ++ channelId ++ ":") (Some (message error)) ;;;
        throw error))
    (set_connectingChannels (fun s => s ∖ {[channelId]})).

(** The callback the reconnect branch hands to [setTimeout]. *)
Definition fire (t : Timer) : M unit :=
  modify (set_sessions (delete (timer_channel t))) ;;;
  initializeSession (timer_channel t) false.

(** [handleConnectionUpdate] is four [if] statements in a row; each is a
    definition here, in the order of the source. *)

(** [if (qr) { ... }] *)
Definition on_qr (channelId : string) (update : Update) : M unit :=
  match qr update with
  | Some q =>
      if JsString.truthy q then
        logger LInfo ("QR Code gerado para canal " ++ channelId) None ;;;
        handleQRCode channelId q
      else ret tt
  | None => ret tt
  end.

(** [if (connection === 'close') { ... }] *)
Definition on_close (channelId : string) (update : Update) : M unit :=
  match connection update with
  | Some ConnClose =>
      let shouldReconnect := negb (bool_decide (statusCode update = Some loggedOut)) in
      logger LInfo ("[" ++ channelId ++ "] Conexão fechada. Status: "
              ++ JsString.of_number (statusCode update)
              ++ ", Reconectar: " ++ JsString.of_bool shouldReconnect) None ;;;
      if shouldReconnect then
        channel <- gets (fun w => channels w !! channelId) ;;
        let attempts := or_zero (prior_attempts channel) + 1 in
        if attempts <=? 5 then
          channels_set channelId (fun _ now =>
            {| status := RECONNECTING;
               qrCode := prior_qrCode channel;
               lastSeen := now;
               reconnectAttempts := Some attempts |}) ;;;
          let delay := Z.min (3000 * 2 ^ (attempts - 1)) 60000 in
          modify (set_timers (fun l => (l ++ [mkTimer delay channelId])%list))
        else
          logger LError ("Canal " ++ channelId ++ " atingiu limite de reconexões") None ;;;
          channels_set channelId (fun _ now =>
            {| status := FAILED;
               qrCode := prior_qrCode channel;
               lastSeen := now;
               reconnectAttempts := Some 0 |})
      else
        channels_set channelId (fun channel now =>
          {| status := LOGGED_OUT;
             qrCode := prior_qrCode channel;
             lastSeen := now;
             reconnectAttempts := prior_attempts channel |}) ;;;
        modify (set_sessions (delete channelId))
  | _ => ret tt
  end.

(** [if (connection === 'open') { ... }] *)
Definition on_open (channelId : string) (update : Update) : M unit :=
  match connection update with
  | Some ConnOpen =>
      logger LInfo ("✅ Canal " ++ channelId ++ " conectado com sucesso!") None ;;;
      channels_set channelId (fun _ now =>
        {| status := CONNECTED;
           qrCode := QrNull;
           lastSeen := now;
           reconnectAttempts := Some 0 |})
  | _ => ret tt
  end.

(** [if (connection === 'connecting') { ... }] *)
Definition on_connecting (channelId : string) (update : Update) : M unit :=
  match connection update with
  | Some ConnConnecting =>
      channels_set channelId (fun channel now =>
        {| status := CONNECTING;
           qrCode := prior_qrCode channel;
           lastSeen := now;
           reconnectAttempts := prior_attempts channel |})
  | _ => ret tt
  end.

Definition handleConnectionUpdate (channelId : string) (update : Update) : M unit :=
  on_qr channelId update ;;;
  on_close channelId update ;;;
  on_open channelId update ;;;
  on_connecting channelId update.

Definition closeChannel (channelId : string) : M unit :=
  try_catch
    (session <- gets (fun w => sessions w !! channelId) ;;
     match session with
     | Some s =>
         call (CallLogout channelId) ;;;
         lift (sock_logout (socket s))
     | None => ret tt
     end ;;;
     modify (set_sessions (delete channelId)) ;;;
     modify (set_channels (delete channelId)) ;;;
     logger LInfo ("Canal " ++ channelId ++ " fechado") None)
    (fun error =>
     logger LError ("Erro ao fechar canal " ++ channelId ++ ":") (Some (message error))).

(** The three [await]s of the method ([end()], the 1 s pause and
    [initializeSession]) are steps of one run: what other calls and events
    do to the state meanwhile is not part of this definition. *)
Definition regenerateQRCode (channelId : string) : M ChannelData :=
  try_catch
    (logger LInfo ("Regenerando QR Code para canal " ++ channelId) None ;;;
     session <- gets (fun w => sessions w !! channelId) ;;
     match session with
     | Some s =>
         try_catch
           (call (CallEnd channelId) ;;;
            lift (sock_end (socket s)))
           (fun error =>
            logger LDebug ("Erro ao fechar socket: " ++ message error) None)
     | None => ret tt
     end ;;;
     modify (set_sessions (delete channelId)) ;;;
     sleep 1000 ;;;
     initializeSession channelId true ;;;
     channel <- gets (fun w => channels w !! channelId) ;;
     ret {| cd_channelId := channelId;
            cd_status := status <$> channel;
            cd_qrCode := prior_qrCode channel |})
    (fun error =>
     logger LError ("Erro ao regenerar QR Code " ++ channelId ++ ":") (Some (message error)) ;;;
     throw error).

Definition restoreSession (channelId : string) : M (option ChannelData) :=
  try_catch
    (connected <- gets (fun w => isChannelConnected w channelId) ;;
     if connected then
       logger LInfo ("Canal " ++ channelId ++ " já está conectado") None ;;;
       ret None
     else
       dirExists <- gets (fun w => bool_decide (channelId ∈ channelDirs w)) ;;
       if negb dirExists then throw (mkError "Canal não encontrado")
       else
         channels_set channelId (fun _ now =>
           {| status := RESTORING;
              qrCode := QrNull;
              lastSeen := now;
              reconnectAttempts := None |}) ;;;
         initializeSession channelId false ;;;
         channel <- gets (fun w => channels w !! channelId) ;;
         ret (Some {| cd_channelId := channelId;
                      cd_status := status <$> channel;
                      cd_qrCode := QrUndefined |}))
    (fun error =>
     logger LError ("Erro ao restaurar sessão " ++ channelId ++ ":") (Some (message error)) ;;;
     throw error).

End Manager.

(** *** [createChannel]

    The method suspends once for outside input: at the [Promise.race] of the
    QR promise against the 15 s timer.  [createChannel_start] is the method
    up to that point, [createChannel_resume] the method from the moment the
    race settles, and [RaceOutcome] says how it settled.  Both run inside the
    outer [try { ... } catch (error)] of the method, [createChannel_catch].
    The whole call, with what the rest of the process does during the wait,
    is [createChannel], further down. *)

Inductive RaceOutcome :=
| QrResolved
| QrRejected (e : JsError)
| TimedOut.

Section CreateChannel.

Context (P : Provider).

Definition createChannel_catch {A} (channelId : string) (body : M A) : M A :=
  try_catch body
    (fun error =>
     logger LError ("Erro ao criar canal " ++ channelId ++ ":") (Some (message error)) ;;;
     modify (set_qrPromises (delete channelId)) ;;;
     throw error).

Definition createChannel_start (channelId : string) : M unit :=
  createChannel_catch channelId
    (known <- gets (fun w => bool_decide (is_Some (channels w !! channelId))) ;;
     if known then throw (mkError "Canal já existe")
     else
       dirExists <- gets (fun w => bool_decide (channelId ∈ channelDirs w)) ;;
       (if negb dirExists then
          lift (mkdirSync P channelId) ;;;
          modify (set_channelDirs (fun s => {[channelId]} ∪ s))
        else ret tt) ;;;
       channels_set channelId (fun _ now =>
         {| status := CREATED;
            qrCode := QrNull;
            lastSeen := now;
            reconnectAttempts := None |}) ;;;
       logger LInfo ("Canal " ++ channelId ++ " criado") None ;;;
       modify (set_qrPromises (insert channelId Pending)) ;;;
       initializeSession P channelId true).

Definition createChannel_resume (channelId : string) (outcome : RaceOutcome) : M ChannelData :=
  createChannel_catch channelId
    (try_finally
       (try_catch
          match outcome with
          | QrResolved => ret tt
          | QrRejected e => throw e
          | TimedOut => throw (mkError "Timeout aguardando QR Code")
          end
          (fun timeoutError =>
           logger LWarn ("Timeout aguardando QR Code para " ++ channelId) None))
       (set_qrPromises (delete channelId)) ;;;
     channel <- gets (fun w => channels w !! channelId) ;;
     match channel with
     | Some c =>
         ret {| cd_channelId := channelId;
                cd_status := Some (status c);
                cd_qrCode := qrCode c |}
     | None =>
         throw (mkError "Cannot read properties of undefined (reading 'status')")
     end).

(** The events the sockets emit, in order of arrival, each handled by the
    listener [initializeSession] registers. *)
Fixpoint deliver (events : list (string * Update)) : M unit :=
  match events with
  | [] => ret tt
  | (channelId, update) :: rest =>
      handleConnectionUpdate P channelId update ;;;
      deliver rest
  end.

End CreateChannel.

(** ** routes/channels.routes.js *)

(** The JSON answer of a route: HTTP status and the fields of the body. *)
Record Response := mkResponse {
  res_status : Z;
  res_success : bool;
  res_error : option string;
  res_message : option string;
  res_data : option ChannelData
}.

Section Routes.

Context (P : Provider).

(** [POST /channels/:channelId/qrcode] *)
Definition post_qrcode (channelId : string) : M Response :=
  try_catch
    (channelStatus <- gets (fun w => getChannelStatus w channelId) ;;
     match channelStatus with
     | None =>
         ret (mkResponse 404 false (Some "CHANNEL_NOT_FOUND")
                (Some "Canal não encontrado") None)
     | Some (_, c) =>
         if bool_decide (status c = CONNECTED) then
           ret (mkResponse 400 false (Some "CHANNEL_ALREADY_CONNECTED")
                  (Some "Canal já está conectado") None)
         else
           newChannelData <- regenerateQRCode P channelId ;;
           logger LInfo ("QR Code regenerado para canal: " ++ channelId) None ;;;
           ret (mkResponse 200 true None None (Some newChannelData))
     end)
    (fun error =>
     logger LError "Erro ao regenerar QR Code:" (Some (message error)) ;;;
     ret (mkResponse 500 false (Some "INTERNAL_ERROR") (Some (message error)) None)).

(** [DELETE /channels/:channelId] *)
Definition delete_channel (channelId : string) : M Response :=
  try_catch
    (channelStatus <- gets (fun w => getChannelStatus w channelId) ;;
     match channelStatus with
     | None =>
         ret (mkResponse 404 false (Some "CHANNEL_NOT_FOUND")
                (Some "Canal não encontrado") None)
     | Some _ =>
         closeChannel channelId ;;;
         logger LInfo ("Canal desconectado via API: " ++ channelId) None ;;;
         ret (mkResponse 200 true None
                (Some ("Canal " ++ channelId ++ " desconectado com sucesso")) None)
     end)
    (fun error =>
     logger LError "Erro ao desconectar canal:" (Some (message error)) ;;;
     ret (mkResponse 500 false (Some "INTERNAL_ERROR") (Some (message error)) None)).

End Routes.

(** ** services/whatsapp.service.js *)

Definition MIN_DELAY_MS : Z := 1000.

(** What [sendTextMessage] returns: [{ success: true, messageId, to, message }]. *)
Record SendResult := mkSendResult {
  sr_messageId : string;
  sr_to : string;
  sr_message : string
}.

Definition applyMessageDelay (channelId : string) : M unit :=
  lastTime <- gets (fun w => lastMessageTime w !! channelId) ;;
  now <- gets clock ;;
  match lastTime with
  | Some t =>
      if t =? 0 then ret tt
      else
        let elapsed := now - t in
        if elapsed <? MIN_DELAY_MS then sleep (MIN_DELAY_MS - elapsed)
        else ret tt
  | None => ret tt
  end.

(** The method [formatWhatsAppNumber] with its [logger.debug] line. *)
Definition formatWhatsAppNumberM (number : string) : M string :=
  logger LDebug ("Formatando número: " ++ number ++ " -> " ++ formatWhatsAppNumber number) None ;;;
  ret (formatWhatsAppNumber number).

Definition sendTextMessage (channelId to text : string) : M SendResult :=
  try_catch
    (connected <- gets (fun w => isChannelConnected w channelId) ;;
     if negb connected then throw (mkError "CHANNEL_NOT_CONNECTED")
     else
       socket <- gets (fun w => getSocket w channelId) ;;
       match socket with
       | None => throw (mkError "CHANNEL_NOT_CONNECTED")
       | Some sk =>
           match sock_user sk with
           | None =>
               logger LError ("Socket sem usuário autenticado para canal " ++ channelId) None ;;;
               throw (mkError "CHANNEL_NOT_CONNECTED")
           | Some userId =>
               logger LInfo ("[" ++ channelId ++ "] Usuário conectado: " ++ userId) None ;;;
               applyMessageDelay channelId ;;;
               formattedNumber <- formatWhatsAppNumberM to ;;
               logger LInfo ("[" ++ channelId ++ "] Número formatado: " ++ to ++ " -> "
                             ++ formattedNumber) None ;;;
               try_catch
                 (call (CallOnWhatsApp channelId formattedNumber) ;;;
                  found <- lift (sock_onWhatsApp sk formattedNumber) ;;
                  logger LInfo ("[" ++ channelId ++ "] Verificação onWhatsApp:") None ;;;
                  match found with
                  | Some (mkOnWhatsApp true jid) =>
                      logger LInfo ("[" ++ channelId ++ "] JID confirmado: " ++ jid) None ;;;
                      logger LInfo ("[" ++ channelId ++ "] Enviando mensagem para " ++ jid ++ "...") None ;;;
                      call (CallSendMessage channelId jid text) ;;;
                      result <- lift (sock_sendMessage sk jid text) ;;
                      logger LInfo ("[" ++ channelId ++ "] Resultado do envio:") result ;;;
                      modify (fun w => set_lastMessageTime (insert channelId (clock w)) w) ;;;
                      logger LInfo ("Mensagem enviada para " ++ to ++ " via canal " ++ channelId) None ;;;
                      match result with
                      | Some messageId => ret (mkSendResult messageId jid text)
                      | None =>
                          throw (mkError "Cannot read properties of undefined (reading 'key')")
                      end
                  | _ => throw (mkError "INVALID_WHATSAPP_NUMBER")
                  end)
                 (fun verifyError =>
                  logger LError ("[" ++ channelId ++ "] Erro na verificação/envio:")
                    (Some (message verifyError)) ;;;
                  throw verifyError)
           end
       end)
    (fun error =>
     logger LError ("Erro ao enviar mensagem (" ++ channelId ++ "):") (Some (message error)) ;;;
     logger LError "Stack:" None ;;;
     if JsString.includes "not-authorized" (message error)
        || JsString.includes "Connection Closed" (message error)
     then throw (mkError "CHANNEL_NOT_CONNECTED")
     else throw error).

(** ** Sample collaborators and states *)

Module Sample.

(** A socket of an authenticated user on which every call succeeds,
    except [logout], whose outcome is the argument. *)
Definition a_socket (logout_outcome : Result unit) : Socket :=
  {| sock_user := Some "5511999990000:1@s.whatsapp.net";
     sock_logout := logout_outcome;
     sock_end := Ok tt;
     sock_onWhatsApp := fun jid => Ok (Some (mkOnWhatsApp true jid));
     sock_sendMessage := fun _ _ => Ok (Some "3EB0") |}.

(** Collaborators that all succeed. *)
Definition provider : Provider :=
  {| mkdirSync := fun _ => Ok tt;
     toDataURL := fun payload => Ok ("data:image/png;base64," ++ payload);
     useMultiFileAuthState := fun _ => Ok tt;
     fetchLatestBaileysVersion := Ok "2.3000.1";
     makeWASocket := fun _ => Ok (a_socket (Ok tt)) |}.

(** A process that has just started: nothing registered, nothing on disk. *)
Definition fresh : World :=
  mkWorld ∅ ∅ ∅ ∅ ∅ ∅ ∅ [] [] [] 0.

(** One channel, [acme], connected over the given socket, after [n]
    reconnect attempts. *)
Definition live (sk : Socket) (n : Z) : World :=
  mkWorld {[ "acme" := mkSession sk "acme" ]}
          {[ "acme" := mkChannel CONNECTED QrNull 0 (Some n) ]}
          ∅ ∅ ∅ {[ "acme" ]} {[ "acme" := true ]} [] [] [] 100.

(** The same, while a call of [initializeSession] for [acme] is under way. *)
Definition starting : World :=
  set_connectingChannels (fun _ => {[ "acme" ]}) (live (a_socket (Ok tt)) 0).

Definition close_event (code : option Z) : Update :=
  {| connection := Some ConnClose; statusCode := code; qr := None |}.

Definition open_event : Update :=
  {| connection := Some ConnOpen; statusCode := None; qr := None |}.

End Sample.

(** ** Predicates of the statements below *)

(** The attempt count the reconnect branch starts from: the stored
    [reconnectAttempts] of the channel, 0 when there is none. *)
Definition currentAttempts (w : World) (channelId : string) : Z :=
  or_zero (prior_attempts (channels w !! channelId)).

(** Every stored [reconnectAttempts] is between 0 and 5. *)
Definition attempts_bounded (w : World) : Prop :=
  forall (channelId : string) (c : Channel) (n : Z),
    channels w !! channelId = Some c ->
    reconnectAttempts c = Some n ->
    0 <= n <= 5.

(** The status recorded for a channel, if there is a record. *)
Definition status_of (w : World) (channelId : string) : option Status :=
  status <$> channels w !! channelId.

(** ** whatsapp.service.js: the other helpers *)

Definition isValidWhatsAppNumber (number : string) : bool :=
  let cleanNumber := JsString.remove_non_digits number in
  ((10 <=? String.length cleanNumber) && (String.length cleanNumber <=? 15))%nat.

(** The object literal of [getMimeType], as its list of entries. *)
Definition mimeTypes : list (string * string) :=
  [ (".pdf", "application/pdf");
    (".doc", "application/msword");
    (".docx", "application/vnd.openxmlformats-officedocument.wordprocessingml.document");
    (".xls", "application/vnd.ms-excel");
    (".xlsx", "application/vnd.openxmlformats-officedocument.spreadsheetml.sheet");
    (".txt", "text/plain");
    (".xml", "application/xml");
    (".zip", "application/zip");
    (".jpg", "image/jpeg");
    (".jpeg", "image/jpeg");
    (".png", "image/png");
    (".gif", "image/gif");
    (".webp", "image/webp");
    (".mp4", "video/mp4");
    (".mp3", "audio/mpeg");
    (".ogg", "audio/ogg") ].

(** [table[key]] on an object literal, for a key that is one of its own
    keys or no property at all (the callers pass the result of
    [path.extname], which is empty or starts with a dot). *)
Fixpoint property (key : string) (table : list (string * string)) : option string :=
  match table with
  | [] => None
  | (k, v) :: rest => if String.eqb key k then Some v else property key rest
  end.

Definition getMimeType (extension : string) : string :=
  match property extension mimeTypes with
  | Some mime => if JsString.truthy mime then mime else "application/octet-stream"
  | None => "application/octet-stream"
  end.

(** [array.includes(x)] on an array of strings *)
Definition includes_string (x : string) (array : list string) : bool :=
  existsb (String.eqb x) array.

Definition isImageType (extension : string) : bool :=
  includes_string extension [".jpg"; ".jpeg"; ".png"; ".gif"; ".webp"].

Definition isVideoType (extension : string) : bool :=
  includes_string extension [".mp4"; ".avi"; ".mov"].

Definition isAudioType (extension : string) : bool :=
  includes_string extension [".mp3"; ".ogg"; ".wav"; ".m4a"].

(** The object [sendDocument] and [sendDocumentBase64] hand to
    [socket.sendMessage], without the file buffer. *)
Inductive MessageContent :=
| ContentImage (caption : string)
| ContentVideo (caption : string)
| ContentAudio (mimetype : string)
| ContentDocument (mimetype fileName caption : string).

(** The [if / else if] chain of [sendDocument] and [sendDocumentBase64]
    that builds [messageContent] from the lower-cased extension. *)
Definition messageContent (fileExtension mimeType fileName caption : string) : MessageContent :=
  if isImageType fileExtension then ContentImage caption
  else if isVideoType fileExtension then ContentVideo caption
  else if isAudioType fileExtension then ContentAudio mimeType
  else ContentDocument mimeType fileName caption.

(** [s.slice(n)] for [n] within the string *)
Fixpoint drop_string (n : nat) (s : string) : string :=
  match n, s with
  | O, _ => s
  | S n', String _ s' => drop_string n' s'
  | S _, EmptyString => EmptyString
  end.

(** The run matched by [[^;]+] at the start of [s]: its length, and what
    follows it. *)
Fixpoint after_media_type (s : string) : nat * string :=
  match s with
  | EmptyString => (O, EmptyString)
  | String c rest =>
      if Ascii.eqb c ";" then (O, s)
      else let (n, tail) := after_media_type rest in (S n, tail)
  end.

(** [s.replace(/^data:[^;]+;base64,/, '')].  The class [[^;]] cannot step
    over a semicolon, so the match, if any, is [data:], the run of
    characters up to the first semicolon (at least one), and [;base64,]. *)
Definition strip_data_url_prefix (s : string) : string :=
  if JsString.startsWith "data:" s then
    let (n, tail) := after_media_type (drop_string 5 s) in
    if (1 <=? n)%nat && JsString.startsWith ";base64," tail
    then drop_string 8 tail
    else s
  else s.

Section Base64.

(** [Buffer.from(text, 'base64')] *)
Context {Buffer : Type} (Buffer_from_base64 : string -> Buffer).

Definition base64ToBuffer (base64String : string) : Buffer :=
  let base64Data := strip_data_url_prefix base64String in
  Buffer_from_base64 base64Data.

End Base64.

(** What [checkNumber] returns: [{ exists, jid }], [jid] possibly [null]. *)
Record CheckResult := mkCheckResult {
  cr_exists : bool;
  cr_jid : option string
}.

Definition checkNumber (channelId number : string) : M CheckResult :=
  try_catch
    (connected <- gets (fun w => isChannelConnected w channelId) ;;
     if negb connected then throw (mkError "CHANNEL_NOT_CONNECTED")
     else
       socket <- gets (fun w => getSocket w channelId) ;;
       match socket with
       | None => throw (mkError "CHANNEL_NOT_CONNECTED")
       | Some sk =>
           formattedNumber <- formatWhatsAppNumberM number ;;
           call (CallOnWhatsApp channelId formattedNumber) ;;;
           result <- lift (sock_onWhatsApp sk formattedNumber) ;;
           ret {| cr_exists := match result with
                               | Some r => wa_exists r
                               | None => false
                               end;
                  cr_jid := Some (match result with
                                  | Some r => if JsString.truthy (wa_jid r) then wa_jid r
                                              else formattedNumber
                                  | None => formattedNumber
                                  end) |}
       end)
    (fun error =>
     logger LError ("Erro ao verificar número (" ++ channelId ++ "):") (Some (message error)) ;;;
     ret {| cr_exists := false; cr_jid := None |}).

(** ** The routes that answer on behalf of the manager and the service *)

(** A field of [req.body] that is a string or is missing, and the test
    [!field] on it. *)
Definition falsy (field : option string) : bool :=
  match field with
  | Some s => negb (JsString.truthy s)
  | None => true
  end.

(** The string of a field that passed the test. *)
Definition field_value (field : option string) : string :=
  match field with
  | Some s => s
  | None => EmptyString
  end.

(** [`${status}`] *)
Definition status_name (s : Status) : string :=
  match s with
  | CREATED => "CREATED"
  | CONNECTING => "CONNECTING"
  | QRCODE => "QRCODE"
  | CONNECTED => "CONNECTED"
  | RECONNECTING => "RECONNECTING"
  | LOGGED_OUT => "LOGGED_OUT"
  | FAILED => "FAILED"
  | RESTORING => "RESTORING"
  end.

(** The [data] of an answer. *)
Inductive Payload :=
| PayloadChannel (d : ChannelData)
| PayloadStatus (channelId : string) (c : Channel)
| PayloadSent (r : SendResult).

(** An answer of a route of [messages.routes.js], of [POST /channels] or of
    a middleware of [app.js]: HTTP status and the fields of the JSON body. *)
Record Reply := mkReply {
  reply_status : Z;
  reply_success : bool;
  reply_error : option string;
  reply_message : option string;
  reply_data : option Payload
}.

(** [POST /messages/text] *)
Definition post_text (channelId to text : option string) : M Reply :=
  try_catch
    (if falsy channelId || falsy to || falsy text then
       ret (mkReply 400 false (Some "MISSING_REQUIRED_FIELDS")
              (Some "channelId, to e message são obrigatórios") None)
     else
       let channelId := field_value channelId in
       let to := field_value to in
       let text := field_value text in
       if negb (isValidWhatsAppNumber to) then
         ret (mkReply 400 false (Some "INVALID_NUMBER")
                (Some "Número de WhatsApp inválido") None)
       else
         channelStatus <- gets (fun w => getChannelStatus w channelId) ;;
         match channelStatus with
         | None =>
             ret (mkReply 404 false (Some "CHANNEL_NOT_FOUND")
                    (Some "Canal não encontrado") None)
         | Some (_, c) =>
             connected <- gets (fun w => isChannelConnected w channelId) ;;
             if negb connected then
               ret (mkReply 400 false (Some "CHANNEL_NOT_CONNECTED")
                      (Some ("Canal não está conectado. Status: " ++ status_name (status c)))
                      None)
             else
               result <- sendTextMessage channelId to text ;;
               logger LInfo ("Mensagem enviada - Canal: " ++ channelId ++ ", Para: " ++ to) None ;;;
               ret (mkReply 200 true None None (Some (PayloadSent result)))
         end)
    (fun error =>
     logger LError "Erro ao enviar mensagem:" (Some (message error)) ;;;
     if String.eqb (message error) "CHANNEL_NOT_CONNECTED" then
       ret (mkReply 400 false (Some "CHANNEL_NOT_CONNECTED")
              (Some "Canal não está conectado") None)
     else if String.eqb (message error) "INVALID_WHATSAPP_NUMBER" then
       ret (mkReply 400 false (Some "INVALID_WHATSAPP_NUMBER")
              (Some "Número não existe no WhatsApp") None)
     else
       ret (mkReply 500 false (Some "INTERNAL_ERROR") (Some (message error)) None)).

(** ** app.js: the API key middleware *)

(** The parts of a request the middleware reads: [req.path] and the headers
    [x-api-key] and [authorization]. *)
Record Request := mkRequest {
  req_path : string;
  req_x_api_key : option string;
  req_authorization : option string
}.

(** What a middleware does with a request: [next()], or an answer. *)
Inductive Passage :=
| Next
| Answered (r : Reply).

(** [process.env.API_KEY || 'q3UydSOJTNCQXxF6MtyjGFRr'] *)
Definition API_KEY (env : option string) : string :=
  match env with
  | Some k => if JsString.truthy k then k else "q3UydSOJTNCQXxF6MtyjGFRr"
  | None => "q3UydSOJTNCQXxF6MtyjGFRr"
  end.

(** [s.replace(pattern, '')] for a string [pattern]: the first occurrence
    goes. *)
Fixpoint remove_first (pattern s : string) : string :=
  if JsString.startsWith pattern s then drop_string (String.length pattern) s
  else
    match s with
    | EmptyString => EmptyString
    | String c rest => String c (remove_first pattern rest)
    end.

(** [req.headers['x-api-key'] || req.headers['authorization']?.replace('Bearer ', '')] *)
Definition presented_key (req : Request) : option string :=
  match req_x_api_key req with
  | Some k =>
      if JsString.truthy k then Some k
      else remove_first "Bearer " <$> req_authorization req
  | None => remove_first "Bearer " <$> req_authorization req
  end.

Definition authenticate (env : option string) (req : Request) : M Passage :=
  let publicRoutes := ["/"; "/health"] in
  if includes_string (req_path req) publicRoutes then ret Next
  else
    let apiKey := presented_key req in
    if falsy apiKey then
      ret (Answered (mkReply 401 false (Some "UNAUTHORIZED")
             (Some "API Key não fornecida. Use o header x-api-key ou Authorization: Bearer <key>")
             None))
    else if negb (String.eqb (field_value apiKey) (API_KEY env)) then
      logger LWarn ("Tentativa de acesso com API Key inválida: "
                    ++ String.substring 0 10 (field_value apiKey) ++ "...") None ;;;
      ret (Answered (mkReply 401 false (Some "UNAUTHORIZED")
             (Some "API Key inválida") None))
    else ret Next.

(** ** utils/logger.js: [getChannelLogs] *)

(** [array.slice(start)] for an integer [start] *)
Definition slice_from {A} (start : Z) (array : list A) : list A :=
  let len := Z.of_nat (List.length array) in
  let from := if start <? 0 then Z.max (len + start) 0 else Z.min start len in
  drop (Z.to_nat from) array.

(** [getChannelLogs(channelId, maxLines)], given the lines
    [this.getTodayLogs()] returns (that method catches its own errors). *)
Definition getChannelLogs (todayLogs : list string) (channelId : string) (maxLines : Z)
    : list string :=
  slice_from (- maxLines)
    (List.filter (JsString.includes ("[CANAL:" ++ channelId ++ "]")) todayLogs).

(** ** Runs of the process *)

(** What can happen to the manager and the service between two moments:
    a socket emits an event, a reconnect timer fires, or a caller invokes a
    method. *)
Inductive Action :=
| ActEvent (channelId : string) (update : Update)
| ActTimer (t : Timer)
| ActCreateStart (channelId : string)
| ActCreateResume (channelId : string) (outcome : RaceOutcome)
| ActRegenerate (channelId : string)
| ActRestore (channelId : string)
| ActClose (channelId : string)
| ActSendText (channelId to text : string)
| ActCheckNumber (channelId number : string).

Section Runs.

Context (P : Provider).

(** The state an action leaves, whether it returned or threw. *)
Definition perform (a : Action) (w : World) : World :=
  match a with
  | ActEvent channelId update => (handleConnectionUpdate P channelId update w).1
  | ActTimer t => (fire P t w).1
  | ActCreateStart channelId => (createChannel_start P channelId w).1
  | ActCreateResume channelId outcome => (createChannel_resume channelId outcome w).1
  | ActRegenerate channelId => (regenerateQRCode P channelId w).1
  | ActRestore channelId => (restoreSession P channelId w).1
  | ActClose channelId => (closeChannel channelId w).1
  | ActSendText channelId to text => (sendTextMessage channelId to text w).1
  | ActCheckNumber channelId number => (checkNumber channelId number w).1
  end.

Fixpoint run (actions : list Action) (w : World) : World :=
  match actions with
  | [] => w
  | a :: rest => run rest (perform a w)
  end.

End Runs.

(** ** [createChannel] as a whole, and [POST /channels]

    A call of [createChannel] during whose wait for the QR code the
    process does [during] (events of any socket, timers, other calls on
    the manager and the service, a [closeChannel] of the same id among
    them) and whose race settles as [outcome]. *)

Section Create.

Context (P : Provider).

Definition createChannel (channelId : string) (during : list Action)
    (outcome : RaceOutcome) : M ChannelData :=
  createChannel_start P channelId ;;;
  modify (run P during) ;;;
  createChannel_resume channelId outcome.

(** [POST /channels]; [during] and [outcome] are those of the call of
    [createChannel] the route awaits. *)
Definition post_channels (channelId : option string)
    (during : list Action) (outcome : RaceOutcome) : M Reply :=
  try_catch
    (if falsy channelId then
       ret (mkReply 400 false (Some "MISSING_CHANNEL_ID")
              (Some "channelId é obrigatório") None)
     else
       let channelId := field_value channelId in
       existingChannel <- gets (fun w => getChannelStatus w channelId) ;;
       match existingChannel with
       | Some (_, c) =>
           ret (mkReply 409 false (Some "CHANNEL_ALREADY_EXISTS")
                  (Some "Canal já existe") (Some (PayloadStatus channelId c)))
       | None =>
           channelData <- createChannel channelId during outcome ;;
           logger LInfo ("Canal criado via API: " ++ channelId) None ;;;
           ret (mkReply 201 true None None (Some (PayloadChannel channelData)))
       end)
    (fun error =>
     logger LError "Erro ao criar canal:" (Some (message error)) ;;;
     ret (mkReply 500 false (Some "INTERNAL_ERROR") (Some (message error)) None)).

End Create.

(** The delays of the reconnect attempts 1 to 5. *)
Definition backoff_delays : list Z := [3000; 6000; 12000; 24000; 48000].

(** Every pending reconnect callback has one of those delays. *)
Definition delays_in_table (w : World) : Prop :=
  forall t, In t (timers w) -> In (timer_delay t) backoff_delays.

(** [w'] has the reconnect callbacks of [w], and each channel record of
    [w'] is the record [w] has for that id or carries no attempt count. *)
Definition adds_no_attempts (w w' : World) : Prop :=
  timers w' = timers w
  /\ forall j c, channels w' !! j = Some c ->
       channels w !! j = Some c \/ reconnectAttempts c = None.

(** ** More sample data *)

Module Fixture.

(** Collaborators of which [makeWASocket] fails. *)
Definition offline : Provider :=
  {| mkdirSync := fun _ => Ok tt;
     toDataURL := fun payload => Ok ("data:image/png;base64," ++ payload);
     useMultiFileAuthState := fun _ => Ok tt;
     fetchLatestBaileysVersion := Ok "2.3000.1";
     makeWASocket := fun _ => Throw (mkError "ENOTFOUND web.whatsapp.com") |}.

(** Collaborators that succeed, except the QR encoder. *)
Definition no_encoder : Provider :=
  {| mkdirSync := fun _ => Ok tt;
     toDataURL := fun _ => Throw (mkError "bad payload");
     useMultiFileAuthState := fun _ => Ok tt;
     fetchLatestBaileysVersion := Ok "2.3000.1";
     makeWASocket := fun _ => Ok (Sample.a_socket (Ok tt)) |}.

(** A socket on which the recipient check answers that the number has no
    account. *)
Definition unknown_recipient : Socket :=
  {| sock_user := Some "5511999990000:1@s.whatsapp.net";
     sock_logout := Ok tt;
     sock_end := Ok tt;
     sock_onWhatsApp := fun _ => Ok None;
     sock_sendMessage := fun _ _ => Ok (Some "3EB0") |}.

(** A socket whose connection has gone: the recipient check and the send
    fail the way Baileys reports it. *)
Definition dropped : Socket :=
  {| sock_user := Some "5511999990000:1@s.whatsapp.net";
     sock_logout := Ok tt;
     sock_end := Ok tt;
     sock_onWhatsApp := fun _ => Throw (mkError "Connection Closed");
     sock_sendMessage := fun _ _ => Throw (mkError "Connection Closed") |}.



(** The channel [acme] in a given status, with no session. *)
Definition recorded (s : Status) : World :=
  mkWorld ∅ {[ "acme" := mkChannel s QrNull 0 None ]}
          ∅ ∅ ∅ {[ "acme" ]} ∅ [] [] [] 100.

(** [acme] connected, its last message sent at time 50. *)
Definition busy : World :=
  set_lastMessageTime (fun _ => {[ "acme" := 50 ]})
    (set_clock (fun _ => 400) (Sample.live (Sample.a_socket (Ok tt)) 0)).

(** [acme] waiting for its first QR code. *)
Definition pairing : World :=
  set_qrPromises (fun _ => {[ "acme" := Pending ]}) (recorded CREATED).

End Fixture.

(** * Properties *)

(** ** [formatWhatsAppNumber] *)

Module FormatNumber.
Import JsString.

Lemma append_cons (c : ascii) (a b : string) :
  String c a ++ b = String c (a ++ b).
Proof. reflexivity. Qed.

Lemma append_empty_r (s : string) : s ++ "" = s.
Proof.
  induction s as [|c s IH]; [reflexivity|].
  now rewrite append_cons, IH.
Qed.

Lemma remove_non_digits_app (a b : string) :
  remove_non_digits (a ++ b) = remove_non_digits a ++ remove_non_digits b.
Proof.
  induction a as [|c a IH]; [reflexivity|].
  rewrite append_cons. cbn [remove_non_digits].
  destruct (is_digit c); [rewrite append_cons|]; now rewrite IH.
Qed.

Lemma remove_non_digits_idem (s : string) :
  remove_non_digits (remove_non_digits s) = remove_non_digits s.
Proof.
  induction s as [|c s IH]; simpl; [reflexivity|].
  destruct (is_digit c) eqn:Hc; simpl; [|exact IH].
  now rewrite Hc, IH.
Qed.

Lemma remove_non_digits_filter (s : string) :
  remove_non_digits s = digits_of s.
Proof.
  unfold digits_of.
  induction s as [|c s IH]; simpl; [reflexivity|].
  destruct (is_digit c); simpl; now rewrite IH.
Qed.

Lemma startsWith_prefix (p s : string) :
  startsWith p s = String.prefix p s.
Proof.
  revert s; induction p as [|a p IH]; intros s; simpl.
  - now destruct s.
  - destruct s as [|b s]; [reflexivity|].
    rewrite IH. cbn [String.prefix].
    destruct (Ascii.eqb_spec a b) as [->|Hne].
    + destruct (ascii_dec b b); [reflexivity|contradiction].
    + destruct (ascii_dec a b); [contradiction|reflexivity].
Qed.

Lemma suffix_has_no_digit : remove_non_digits "@s.whatsapp.net" = "".
Proof. reflexivity. Qed.

Lemma country_code_digits : remove_non_digits "55" = "55".
Proof. reflexivity. Qed.

(** The digits kept by one pass are what a second pass finds: the suffix
    holds no digit and a leading 55 stays where it is. *)
Lemma digits_of_formatted (n : string) :
  remove_non_digits (formatWhatsAppNumber n)
  = if startsWith "55" (remove_non_digits n)
    then remove_non_digits n
    else "55" ++ remove_non_digits n.
Proof.
  unfold formatWhatsAppNumber.
  destruct (startsWith "55" (remove_non_digits n)); cbn [negb];
    rewrite !remove_non_digits_app, remove_non_digits_idem, suffix_has_no_digit.
  - apply append_empty_r.
  - rewrite country_code_digits. now rewrite append_empty_r.
Qed.

End FormatNumber.

(** C10. [formatWhatsAppNumber] is idempotent, and its output is the
    digits of the input, with 55 put in front when they do not start with 55
    already, followed by the suffix [@s.whatsapp.net]. *)
Theorem formatWhatsAppNumber_idempotent (n : string) :
  formatWhatsAppNumber (formatWhatsAppNumber n) = formatWhatsAppNumber n
  /\ formatWhatsAppNumber n
     = (if String.prefix "55" (digits_of n) then "" else "55")
       ++ digits_of n ++ "@s.whatsapp.net".
Proof.
  split.
  - unfold formatWhatsAppNumber at 1.
    rewrite FormatNumber.digits_of_formatted.
    unfold formatWhatsAppNumber.
    destruct (JsString.startsWith "55" (JsString.remove_non_digits n)) eqn:H55.
    + now rewrite H55.
    + reflexivity.
  - unfold formatWhatsAppNumber.
    rewrite FormatNumber.startsWith_prefix, FormatNumber.remove_non_digits_filter.
    destruct (String.prefix "55" (digits_of n)); reflexivity.
Qed.

Example formatWhatsAppNumber_local :
  formatWhatsAppNumber "(11) 99999-0000" = "5511999990000@s.whatsapp.net".
Proof. reflexivity. Qed.

Example formatWhatsAppNumber_with_country_code :
  formatWhatsAppNumber "+55 11 99999-0000" = "5511999990000@s.whatsapp.net".
Proof. reflexivity. Qed.

Example formatWhatsAppNumber_of_jid :
  formatWhatsAppNumber "5511999990000@s.whatsapp.net" = "5511999990000@s.whatsapp.net".
Proof. reflexivity. Qed.

(** ** The event handler *)

Section Handler.

Context (P : Provider).

(** The QR statement never throws; it leaves the channels alone or
    rewrites the entry of its channel to [QRCODE], keeping the attempt
    count; sessions, timers and the clock are not touched. *)
Lemma on_qr_effect (channelId : string) (update : Update) (w : World) :
  exists w1,
    on_qr P channelId update w = (w1, Ok tt)
    /\ sessions w1 = sessions w
    /\ timers w1 = timers w
    /\ clock w1 = clock w
    /\ (channels w1 = channels w
        \/ exists c, channels w1 = <[channelId := c]> (channels w)
             /\ status c = QRCODE
             /\ reconnectAttempts c = prior_attempts (channels w !! channelId)).
Proof.
  unfold on_qr.
  destruct (qr update) as [q|]; [destruct (JsString.truthy q)|];
    try (exists w; repeat split; auto; fail).
  unfold handleQRCode, try_catch, bind, lift, logger, modify,
    channels_set, settle_qrPromise.
  cbn.
  destruct (toDataURL P q) as [url|e]; cbn;
    eexists; (split; [reflexivity|]); cbn; repeat split; auto.
  right. eexists. repeat split; reflexivity.
Qed.

Lemma on_qr_keeps_attempts (w w1 : World) (channelId j : string) :
  (channels w1 = channels w
   \/ exists c, channels w1 = <[channelId := c]> (channels w)
        /\ status c = QRCODE
        /\ reconnectAttempts c = prior_attempts (channels w !! channelId)) ->
  prior_attempts (channels w1 !! j) = prior_attempts (channels w !! j).
Proof.
  intros [->|(c & -> & _ & Hc)]; [reflexivity|].
  destruct (decide (channelId = j)) as [<-|Hne].
  - now rewrite lookup_insert_eq.
  - now rewrite lookup_insert_ne.
Qed.

(** C3. An event [open] leaves the channel [CONNECTED], with [qrCode]
    [null] and [reconnectAttempts] 0 (and [lastSeen] the time of the
    event), whatever the entry was and whether or not the event also
    carried a QR payload. *)
Theorem open_sets_connected (channelId : string) (update : Update) (w : World) :
  connection update = Some ConnOpen ->
  exists w' c,
    handleConnectionUpdate P channelId update w = (w', Ok tt)
    /\ channels w' !! channelId = Some c
    /\ status c = CONNECTED
    /\ qrCode c = QrNull
    /\ reconnectAttempts c = Some 0
    /\ lastSeen c = clock w.
Proof.
  intros Hopen.
  unfold handleConnectionUpdate, bind.
  destruct (on_qr_effect channelId update w) as (w1 & -> & _ & _ & Hclock & _).
  unfold on_close, on_open, on_connecting. rewrite Hopen.
  cbn. eexists _, _. split; [reflexivity|].
  cbn. rewrite lookup_insert_eq. repeat split; auto.
Qed.

Lemma backoff_table (n : Z) :
  0 <= n <= 4 ->
  Z.min (3000 * 2 ^ n) 60000
  = nth (Z.to_nat n) [3000; 6000; 12000; 24000; 48000] 0.
Proof.
  intros Hn.
  assert (n = 0 \/ n = 1 \/ n = 2 \/ n = 3 \/ n = 4) as Hcases by lia.
  destruct Hcases as [->|[->|[->|[->| ->]]]]; reflexivity.
Qed.

(** C2. A [close] whose cause is not the logged-out one, arriving when the
    attempt count is [n] with [0 <= n <= 4], leaves the channel
    [RECONNECTING] with count [n + 1] and hands [setTimeout] one callback,
    with delay [min(3000 * 2^n, 60000)], that is 3000, 6000, 12000, 24000,
    48000 ms for the attempts 1 to 5. *)
Theorem close_schedules_backoff (channelId : string) (update : Update) (w : World) (n : Z) :
  connection update = Some ConnClose ->
  statusCode update <> Some loggedOut ->
  currentAttempts w channelId = n ->
  0 <= n <= 4 ->
  exists w' c,
    handleConnectionUpdate P channelId update w = (w', Ok tt)
    /\ channels w' !! channelId = Some c
    /\ status c = RECONNECTING
    /\ reconnectAttempts c = Some (n + 1)
    /\ timers w' = (timers w ++ [mkTimer (Z.min (3000 * 2 ^ n) 60000) channelId])%list
    /\ Z.min (3000 * 2 ^ n) 60000
       = nth (Z.to_nat n) [3000; 6000; 12000; 24000; 48000] 0.
Proof.
  intros Hclose Hcause Hn Hrange.
  unfold handleConnectionUpdate, bind.
  destruct (on_qr_effect channelId update w) as (w1 & -> & _ & Htimers & _ & Hch).
  pose proof (on_qr_keeps_attempts w w1 channelId channelId Hch) as Hkeep.
  unfold on_close, on_open, on_connecting. rewrite Hclose.
  rewrite (bool_decide_eq_false_2 _ Hcause).
  unfold bind, logger, modify, gets, channels_set, ret. cbn [negb set_log channels].
  rewrite Hkeep. fold (currentAttempts w channelId). rewrite Hn.
  assert ((n + 1 <=? 5) = true) as -> by (apply Z.leb_le; lia).
  replace (n + 1 - 1) with n by lia.
  eexists _, _. split; [reflexivity|].
  cbn [channels timers set_timers set_channels set_log].
  rewrite lookup_insert_eq, Htimers.
  repeat split; auto using backoff_table.
Qed.

(** C4. A [close] whose cause is the logged-out one leaves the channel
    [LOGGED_OUT], removes the session of the id, hands nothing to
    [setTimeout] and keeps the attempt count as it was. *)
Theorem logged_out_close (channelId : string) (update : Update) (w : World) :
  connection update = Some ConnClose ->
  statusCode update = Some loggedOut ->
  exists w' c,
    handleConnectionUpdate P channelId update w = (w', Ok tt)
    /\ channels w' !! channelId = Some c
    /\ status c = LOGGED_OUT
    /\ sessions w' !! channelId = None
    /\ timers w' = timers w
    /\ reconnectAttempts c = prior_attempts (channels w !! channelId).
Proof.
  intros Hclose Hcause.
  unfold handleConnectionUpdate, bind.
  destruct (on_qr_effect channelId update w) as (w1 & -> & _ & Htimers & _ & Hch).
  pose proof (on_qr_keeps_attempts w w1 channelId channelId Hch) as Hkeep.
  unfold on_close, on_open, on_connecting. rewrite Hclose.
  rewrite (bool_decide_eq_true_2 _ Hcause).
  unfold bind, logger, modify, gets, channels_set, ret. cbn [negb set_log channels].
  eexists _, _. split; [reflexivity|].
  cbn [channels timers sessions set_sessions set_channels set_log].
  rewrite lookup_insert_eq, lookup_delete_eq.
  repeat split; auto.
Qed.

Lemma attempts_bounded_same (w w' : World) :
  channels w' = channels w -> attempts_bounded w -> attempts_bounded w'.
Proof. unfold attempts_bounded. intros ->. auto. Qed.

Lemma attempts_bounded_insert (w w' : World) (channelId : string) (c : Channel) :
  attempts_bounded w ->
  channels w' = <[channelId := c]> (channels w) ->
  (forall n, reconnectAttempts c = Some n -> 0 <= n <= 5) ->
  attempts_bounded w'.
Proof.
  intros Hw Heq Hc j cj n Hj Hn. rewrite Heq in Hj.
  destruct (decide (channelId = j)) as [<-|Hne].
  - rewrite lookup_insert_eq in Hj. injection Hj as <-. auto.
  - rewrite lookup_insert_ne in Hj by assumption. eapply Hw; eauto.
Qed.

Lemma prior_attempts_bounded (w : World) (channelId : string) (n : Z) :
  attempts_bounded w ->
  prior_attempts (channels w !! channelId) = Some n ->
  0 <= n <= 5.
Proof.
  intros Hw Hn. destruct (channels w !! channelId) as [c|] eqn:Hc; [|discriminate].
  eapply Hw; eauto.
Qed.

Lemma currentAttempts_bounded (w : World) (channelId : string) :
  attempts_bounded w -> 0 <= currentAttempts w channelId <= 5.
Proof.
  intros Hw. unfold currentAttempts, or_zero.
  destruct (prior_attempts (channels w !! channelId)) as [n|] eqn:Hn; [|lia].
  pose proof (prior_attempts_bounded w channelId n Hw Hn).
  destruct (n =? 0); lia.
Qed.

Lemma on_qr_bounded (w w1 : World) (channelId : string) :
  attempts_bounded w ->
  (channels w1 = channels w
   \/ exists c, channels w1 = <[channelId := c]> (channels w)
        /\ status c = QRCODE
        /\ reconnectAttempts c = prior_attempts (channels w !! channelId)) ->
  attempts_bounded w1.
Proof.
  intros Hw [Heq|(c & Heq & _ & Hc)].
  - eapply attempts_bounded_same; eauto.
  - eapply attempts_bounded_insert; eauto.
    intros n Hn. rewrite Hc in Hn. eapply prior_attempts_bounded; eauto.
Qed.

Lemma on_qr_not_failed (w w1 : World) (channelId : string) :
  (channels w1 = channels w
   \/ exists c, channels w1 = <[channelId := c]> (channels w)
        /\ status c = QRCODE
        /\ reconnectAttempts c = prior_attempts (channels w !! channelId)) ->
  status_of w1 channelId = Some FAILED -> status_of w channelId = Some FAILED.
Proof.
  unfold status_of. intros [->|(c & -> & Hc & _)]; [auto|].
  rewrite lookup_insert_eq. cbn. rewrite Hc. discriminate.
Qed.

(** C5. Every run of the handler keeps every stored [reconnectAttempts]
    within 0..5.  On a [close] the channel ends [FAILED] exactly when the
    cause is not the logged-out one and the count was already 5; that
    transition stores count 0 and hands nothing to [setTimeout].  No other
    event makes a channel [FAILED]. *)
Theorem attempts_stay_bounded (channelId : string) (update : Update) (w : World) :
  attempts_bounded w ->
  exists w',
    handleConnectionUpdate P channelId update w = (w', Ok tt)
    /\ attempts_bounded w'
    /\ (connection update = Some ConnClose ->
          (status_of w' channelId = Some FAILED
             <-> statusCode update <> Some loggedOut /\ currentAttempts w channelId = 5)
          /\ (status_of w' channelId = Some FAILED ->
                prior_attempts (channels w' !! channelId) = Some 0
                /\ timers w' = timers w))
    /\ (connection update <> Some ConnClose ->
          status_of w' channelId = Some FAILED ->
          status_of w channelId = Some FAILED).
Proof.
  intros Hw.
  unfold handleConnectionUpdate, bind.
  destruct (on_qr_effect channelId update w) as (w1 & -> & _ & Htimers & _ & Hch).
  pose proof (on_qr_bounded w w1 channelId Hw Hch) as Hw1.
  pose proof (on_qr_keeps_attempts w w1 channelId channelId Hch) as Hkeep.
  pose proof (on_qr_not_failed w w1 channelId Hch) as Hnf.
  pose proof (currentAttempts_bounded w channelId Hw) as Hcur.
  unfold on_close, on_open, on_connecting.
  destruct (connection update) as [[| |]|] eqn:Hconn.
  - (* close *)
    destruct (bool_decide (statusCode update = Some loggedOut)) eqn:Hb.
    + apply bool_decide_eq_true_1 in Hb.
      unfold bind, logger, modify, gets, channels_set, ret.
      cbn [negb set_log channels].
      eexists. split; [reflexivity|].
      split; [|split].
      * eapply attempts_bounded_insert; [exact Hw1|reflexivity|].
        cbn [reconnectAttempts]. intros n Hn.
        eapply prior_attempts_bounded; eauto.
      * intros _. unfold status_of.
        cbn [channels set_sessions set_channels set_log].
        rewrite lookup_insert_eq. cbn.
        split; [split|]; try discriminate.
        intros [Hne _]. contradiction.
      * intros Hne. contradiction.
    + apply bool_decide_eq_false_1 in Hb.
      unfold bind, logger, modify, gets, channels_set, ret.
      cbn [negb set_log channels].
      rewrite Hkeep. fold (currentAttempts w channelId).
      destruct (currentAttempts w channelId + 1 <=? 5) eqn:Hle.
      * apply Z.leb_le in Hle.
        eexists. split; [reflexivity|].
        split; [|split].
        -- eapply attempts_bounded_insert; [exact Hw1|reflexivity|].
           cbn [reconnectAttempts]. intros n Hn. injection Hn as <-. lia.
        -- intros _. unfold status_of.
           cbn [channels set_timers set_channels set_log].
           rewrite lookup_insert_eq. cbn.
           split; [split|]; try discriminate.
           intros [_ H5]. lia.
        -- intros Hne. contradiction.
      * apply Z.leb_gt in Hle.
        eexists. split; [reflexivity|].
        split; [|split].
        -- eapply attempts_bounded_insert; [exact Hw1|reflexivity|].
           cbn [reconnectAttempts]. intros n Hn. injection Hn as <-. lia.
        -- intros _. unfold status_of.
           cbn [channels timers set_channels set_log].
           rewrite lookup_insert_eq. cbn.
           repeat split; auto. lia.
        -- intros Hne. contradiction.
  - (* open *)
    unfold bind, logger, modify, gets, channels_set, ret.
    cbn [set_log channels].
    eexists. split; [reflexivity|].
    split; [|split].
    + eapply attempts_bounded_insert; [exact Hw1|reflexivity|].
      cbn [reconnectAttempts]. intros n Hn. injection Hn as <-. lia.
    + intros Hc. discriminate.
    + intros _. unfold status_of.
      cbn [channels set_channels set_log].
      rewrite lookup_insert_eq. cbn. discriminate.
  - (* connecting *)
    unfold bind, logger, modify, gets, channels_set, ret.
    eexists. split; [reflexivity|].
    split; [|split].
    + eapply attempts_bounded_insert; [exact Hw1|reflexivity|].
      cbn [reconnectAttempts]. intros n Hn.
      eapply prior_attempts_bounded; eauto.
    + intros Hc. discriminate.
    + intros _. unfold status_of.
      cbn [channels set_channels].
      rewrite lookup_insert_eq. cbn. discriminate.
  - (* no connection field *)
    unfold bind, ret.
    exists w1. split; [reflexivity|].
    split; [exact Hw1|split].
    + intros Hc. discriminate.
    + intros _. exact Hnf.
Qed.

End Handler.

(** Witnesses of the handler statements, on the channel [acme]. *)

Lemma open_sets_connected_witness :
  connection Sample.open_event = Some ConnOpen
  /\ exists w' c,
       handleConnectionUpdate Sample.provider "acme" Sample.open_event
         (Sample.live (Sample.a_socket (Ok tt)) 3) = (w', Ok tt)
       /\ channels w' !! "acme" = Some c
       /\ status c = CONNECTED
       /\ qrCode c = QrNull
       /\ reconnectAttempts c = Some 0
       /\ lastSeen c = clock (Sample.live (Sample.a_socket (Ok tt)) 3).
Proof.
  split; [reflexivity|].
  apply (open_sets_connected Sample.provider "acme" Sample.open_event); reflexivity.
Defined.

Lemma close_schedules_backoff_witness :
  let update := Sample.close_event (Some 428) in
  let w := Sample.live (Sample.a_socket (Ok tt)) 2 in
  connection update = Some ConnClose
  /\ statusCode update <> Some loggedOut
  /\ currentAttempts w "acme" = 2
  /\ 0 <= 2 <= 4
  /\ exists w' c,
       handleConnectionUpdate Sample.provider "acme" update w = (w', Ok tt)
       /\ channels w' !! "acme" = Some c
       /\ status c = RECONNECTING
       /\ reconnectAttempts c = Some (2 + 1)
       /\ timers w' = (timers w ++ [mkTimer (Z.min (3000 * 2 ^ 2) 60000) "acme"])%list
       /\ Z.min (3000 * 2 ^ 2) 60000
          = nth (Z.to_nat 2) [3000; 6000; 12000; 24000; 48000] 0.
Proof.
  intros update w.
  assert (statusCode update <> Some loggedOut) as Hcause by (vm_compute; discriminate).
  assert (currentAttempts w "acme" = 2) as Hn by (vm_compute; reflexivity).
  repeat (split; [first [reflexivity | assumption | lia]|]).
  apply (close_schedules_backoff Sample.provider "acme" update w 2);
    first [reflexivity | assumption | lia].
Defined.

Lemma logged_out_close_witness :
  let update := Sample.close_event (Some loggedOut) in
  let w := Sample.live (Sample.a_socket (Ok tt)) 2 in
  connection update = Some ConnClose
  /\ statusCode update = Some loggedOut
  /\ exists w' c,
       handleConnectionUpdate Sample.provider "acme" update w = (w', Ok tt)
       /\ channels w' !! "acme" = Some c
       /\ status c = LOGGED_OUT
       /\ sessions w' !! "acme" = None
       /\ timers w' = timers w
       /\ reconnectAttempts c = prior_attempts (channels w !! "acme").
Proof.
  intros update w.
  split; [reflexivity|]. split; [reflexivity|].
  apply (logged_out_close Sample.provider "acme" update w); reflexivity.
Defined.

Lemma live_attempts_bounded (sk : Socket) (n : Z) :
  0 <= n <= 5 -> attempts_bounded (Sample.live sk n).
Proof.
  intros Hn j c m Hj Hm. cbn in Hj.
  apply lookup_singleton_Some in Hj as [_ <-].
  cbn in Hm. injection Hm as <-. exact Hn.
Qed.

Lemma attempts_stay_bounded_witness :
  let update := Sample.close_event (Some 428) in
  let w := Sample.live (Sample.a_socket (Ok tt)) 5 in
  attempts_bounded w
  /\ exists w',
       handleConnectionUpdate Sample.provider "acme" update w = (w', Ok tt)
       /\ attempts_bounded w'
       /\ (connection update = Some ConnClose ->
             (status_of w' "acme" = Some FAILED
                <-> statusCode update <> Some loggedOut /\ currentAttempts w "acme" = 5)
             /\ (status_of w' "acme" = Some FAILED ->
                   prior_attempts (channels w' !! "acme") = Some 0
                   /\ timers w' = timers w))
       /\ (connection update <> Some ConnClose ->
             status_of w' "acme" = Some FAILED ->
             status_of w "acme" = Some FAILED).
Proof.
  intros update w.
  split; [apply live_attempts_bounded; lia|].
  apply (attempts_stay_bounded Sample.provider "acme" update w).
  apply live_attempts_bounded; lia.
Defined.

(** The scenario of six [close] events in a row with no [open] between
    them: five times [RECONNECTING], with the delays of the table, then
    [FAILED] with the count back at 0 and no sixth callback. *)
Example six_closes_in_a_row :
  let closes := repeat ("acme", Sample.close_event (Some 428)) 6 in
  let w' := (deliver Sample.provider closes (Sample.live (Sample.a_socket (Ok tt)) 0)).1 in
  channels w' !! "acme" = Some (mkChannel FAILED QrNull 100 (Some 0))
  /\ List.map timer_delay (timers w') = [3000; 6000; 12000; 24000; 48000].
Proof. vm_compute. split; reflexivity. Qed.

Example five_closes_in_a_row :
  let closes := repeat ("acme", Sample.close_event None) 5 in
  let w' := (deliver Sample.provider closes (Sample.live (Sample.a_socket (Ok tt)) 0)).1 in
  channels w' !! "acme" = Some (mkChannel RECONNECTING QrNull 100 (Some 5)).
Proof. vm_compute. reflexivity. Qed.

(** ** Closing a channel *)

(** With no session for the id, or with one whose [logout] succeeds,
    [closeChannel] removes the session and the channel record. *)
Lemma closeChannel_removes (channelId : string) (w : World) :
  (forall s, sessions w !! channelId = Some s -> sock_logout (socket s) = Ok tt) ->
  exists w',
    closeChannel channelId w = (w', Ok tt)
    /\ sessions w' !! channelId = None
    /\ channels w' !! channelId = None.
Proof.
  intros Hlogout.
  unfold closeChannel, try_catch, bind, gets, call, lift, modify, logger, ret.
  destruct (sessions w !! channelId) as [s|] eqn:Hs.
  - rewrite (Hlogout s eq_refl). eexists. split; [reflexivity|].
    cbn. now rewrite !lookup_delete_eq.
  - eexists. split; [reflexivity|].
    cbn. now rewrite !lookup_delete_eq.
Qed.

(** When [logout] throws, control leaves the [try] block before the two
    [delete] calls: the error is logged, nothing is raised, and both maps
    are as they were. *)
Lemma closeChannel_logout_throws (channelId : string) (w : World) (s : Session) (e : JsError) :
  sessions w !! channelId = Some s ->
  sock_logout (socket s) = Throw e ->
  closeChannel channelId w
  = (set_log (fun l => (l ++ [mkLog LError ("Erro ao fechar canal " ++ channelId ++ ":")
                                 (Some (message e))])%list)
       (set_wire (fun l => (l ++ [CallLogout channelId])%list) w),
     Ok tt).
Proof.
  intros Hs He.
  unfold closeChannel, try_catch, bind, gets, call, lift, modify, logger, ret.
  rewrite Hs, He. reflexivity.
Qed.

(** C1, at the input where it fails: the channel [acme] is connected over a
    socket whose [logout] rejects with [Connection Closed].  [closeChannel]
    returns normally, and the session and the channel record of [acme] are
    both still there. *)
Theorem closeChannel_keeps_records_when_logout_throws :
  let sk := Sample.a_socket (Throw (mkError "Connection Closed")) in
  let w := Sample.live sk 0 in
  exists w',
    closeChannel "acme" w = (w', Ok tt)
    /\ sessions w' !! "acme" = Some (mkSession sk "acme")
    /\ channels w' !! "acme" = Some (mkChannel CONNECTED QrNull 0 (Some 0))
    /\ log w' = [mkLog LError "Erro ao fechar canal acme:" (Some "Connection Closed")].
Proof.
  intros sk w. eexists. split.
  - apply (closeChannel_logout_throws "acme" w (mkSession sk "acme")
             (mkError "Connection Closed")); reflexivity.
  - repeat split; reflexivity.
Qed.

(** ** Starting a connection attempt *)

Section Attempt.

Context (P : Provider).

(** C6, as the code has it: a call of [initializeSession] for an id that
    is already in [connectingChannels] returns at once and leaves the
    sessions, the channels and the credential folders as they were, but its
    [finally] block runs all the same and takes the id out of
    [connectingChannels]. *)
Theorem initializeSession_duplicate_call (channelId : string) (forceNew : bool) (w : World) :
  channelId ∈ connectingChannels w ->
  exists w',
    initializeSession P channelId forceNew w = (w', Ok tt)
    /\ sessions w' = sessions w
    /\ channels w' = channels w
    /\ authStore w' = authStore w
    /\ channelDirs w' = channelDirs w
    /\ wire w' = wire w
    /\ connectingChannels w' = connectingChannels w ∖ {[channelId]}
    /\ channelId ∉ connectingChannels w'.
Proof.
  intros Hin.
  unfold initializeSession, try_finally, try_catch, bind, gets, logger, modify.
  rewrite (bool_decide_eq_true_2 _ Hin).
  eexists. split; [reflexivity|].
  cbn. repeat split; auto.
  rewrite not_elem_of_difference. right. now apply elem_of_singleton.
Qed.

(** [initializeSession] never writes the channels, whatever its outcome. *)
Lemma initializeSession_channels (channelId : string) (forceNew : bool) (w : World) :
  channels (initializeSession P channelId forceNew w).1 = channels w.
Proof.
  unfold initializeSession, try_finally, try_catch, bind, gets, logger,
    call, lift, sleep, ret, throw, modify.
  repeat (case_match; simplify_eq; cbn in * ); reflexivity.
Qed.

End Attempt.

Lemma initializeSession_duplicate_call_witness :
  "acme" ∈ connectingChannels Sample.starting
  /\ exists w',
       initializeSession Sample.provider "acme" false Sample.starting = (w', Ok tt)
       /\ sessions w' = sessions Sample.starting
       /\ channels w' = channels Sample.starting
       /\ authStore w' = authStore Sample.starting
       /\ channelDirs w' = channelDirs Sample.starting
       /\ wire w' = wire Sample.starting
       /\ connectingChannels w' = connectingChannels Sample.starting ∖ {["acme"]}
       /\ "acme" ∉ connectingChannels w'.
Proof.
  split; [vm_compute; reflexivity|].
  apply (initializeSession_duplicate_call Sample.provider "acme" false Sample.starting).
  vm_compute. reflexivity.
Defined.

(** ** Creating a channel *)

Section Pairing.

Context (P : Provider).

(** The handler never throws and never removes a channel record. *)
Lemma handleConnectionUpdate_keeps_records (channelId : string) (update : Update) (w : World) :
  exists w',
    handleConnectionUpdate P channelId update w = (w', Ok tt)
    /\ forall j, is_Some (channels w !! j) -> is_Some (channels w' !! j).
Proof.
  unfold handleConnectionUpdate, bind.
  destruct (on_qr_effect P channelId update w) as (w1 & -> & _ & _ & _ & Hch).
  assert (forall j, is_Some (channels w !! j) -> is_Some (channels w1 !! j)) as Hkeep.
  { intros j Hj. destruct Hch as [->|(c & -> & _)]; [exact Hj|].
    rewrite lookup_insert_is_Some. destruct (decide (channelId = j)); auto. }
  assert (forall (m : gmap string Channel) (c : Channel) (j : string),
            is_Some (channels w !! j) -> m = channels w1 ->
            is_Some (<[channelId := c]> m !! j)) as Hins.
  { intros m c j Hj ->. rewrite lookup_insert_is_Some.
    destruct (decide (channelId = j)); auto. }
  unfold on_close, on_open, on_connecting, bind, logger, modify, gets, channels_set, ret.
  destruct (connection update) as [[| |]|];
    [destruct (bool_decide (statusCode update = Some loggedOut));
     [|cbn [negb set_log channels];
       destruct (or_zero (prior_attempts (channels w1 !! channelId)) + 1 <=? 5)]
    | | |];
    (eexists; split; [reflexivity|]); cbn; intros j Hj; auto.
Qed.

(** When the first part of [createChannel] returns, the channel record it
    wrote is there. *)
Lemma createChannel_start_registers (channelId : string) (w w1 : World) :
  createChannel_start P channelId w = (w1, Ok tt) ->
  is_Some (channels w1 !! channelId).
Proof.
  unfold createChannel_start, createChannel_catch, try_catch, bind, gets, lift, ret.
  destruct (bool_decide (is_Some (channels w !! channelId))).
  - unfold throw, logger, modify. cbn. discriminate.
  - unfold channels_set, logger, modify.
    destruct (bool_decide (channelId ∈ channelDirs w)); cbn [negb];
      [|destruct (mkdirSync P channelId) as [[]|e0];
        [|unfold throw; cbn; discriminate]];
      cbn [set_channelDirs channels clock];
      match goal with
      | |- context [initializeSession P channelId true ?w0] =>
          pose proof (initializeSession_channels P channelId true w0) as Hch;
          destruct (initializeSession P channelId true w0) as [w' [[]|e]]
      end;
      first [ intros [= <-]; cbn in Hch; rewrite Hch; rewrite lookup_insert_eq; eauto
            | unfold throw; cbn; discriminate ].
Qed.

(** The second part of [createChannel], entered because the timer won the
    race, in any state that still has a record for the id. *)
Lemma createChannel_resume_timeout (channelId : string) (w : World) (c : Channel) :
  channels w !! channelId = Some c ->
  createChannel_resume channelId TimedOut w
  = (set_qrPromises (delete channelId)
       (set_log (fun l => (l ++ [mkLog LWarn ("Timeout aguardando QR Code para "
                                              ++ channelId) None])%list) w),
     Ok {| cd_channelId := channelId;
           cd_status := Some (status c);
           cd_qrCode := qrCode c |}).
Proof.
  intros Hc.
  unfold createChannel_resume, createChannel_catch, try_catch, try_finally,
    bind, throw, logger, modify, gets, ret.
  cbn. rewrite Hc. reflexivity.
Qed.

(** Of all the process can do, only [closeChannel] of the id takes the
    record of the id away. *)
Lemma perform_keeps_record (channelId : string) (a : Action) (w : World) :
  a <> ActClose channelId ->
  is_Some (channels w !! channelId) ->
  is_Some (channels (perform P a w) !! channelId).
Proof.
  intros Ha Hc.
  assert (forall (m : gmap string Channel) (j : string) (c : Channel),
            m = channels w -> is_Some (<[j := c]> m !! channelId)) as Hins.
  { intros m j c ->. rewrite lookup_insert_is_Some.
    destruct (decide (j = channelId)); auto. }
  destruct a as [j update|t|j|j o|j|j|j|j to text|j number]; cbn [perform].
  - destruct (handleConnectionUpdate_keeps_records j update w) as (w' & -> & Hk).
    apply Hk, Hc.
  - unfold fire, bind, modify.
    rewrite (surjective_pairing (initializeSession P _ _ _)).
    destruct (initializeSession P _ _ _).2 eqn:Hr; cbn [fst];
      rewrite initializeSession_channels; exact Hc.
  - unfold createChannel_start, createChannel_catch, try_catch, bind, gets, lift, ret,
      channels_set, logger, throw, modify.
    destruct (bool_decide (is_Some (channels w !! j))); cbn; [exact Hc|].
    destruct (bool_decide (j ∈ channelDirs w)); cbn;
      [|destruct (mkdirSync P j) as [[]|e0]; cbn; [|exact Hc]];
      match goal with
      | |- context [initializeSession P j true ?w0] =>
          pose proof (initializeSession_channels P j true w0) as Hch;
          destruct (initializeSession P j true w0) as [? [[]|?]]
      end;
      cbn in *; rewrite Hch; apply Hins; reflexivity.
  - unfold createChannel_resume, createChannel_catch, try_catch, try_finally,
      bind, gets, logger, throw, ret, modify.
    destruct o; cbn; destruct (channels w !! j); cbn; exact Hc.
  - unfold regenerateQRCode, try_catch, bind, gets, logger, call, lift, sleep,
      throw, ret, modify.
    cbn. destruct (sessions w !! j) as [s|]; cbn;
      [destruct (sock_end (socket s)); cbn|];
      match goal with
      | |- context [initializeSession P j true ?w0] =>
          pose proof (initializeSession_channels P j true w0) as Hch;
          destruct (initializeSession P j true w0) as [? [[]|?]]
      end;
      cbn in *; rewrite Hch; exact Hc.
  - unfold restoreSession, try_catch, bind, gets, channels_set, logger, throw, ret, modify.
    destruct (isChannelConnected w j); cbn; [exact Hc|].
    destruct (bool_decide (j ∈ channelDirs w)); cbn; [|exact Hc].
    match goal with
    | |- context [initializeSession P j false ?w0] =>
        pose proof (initializeSession_channels P j false w0) as Hch;
        destruct (initializeSession P j false w0) as [? [[]|?]]
    end;
      cbn in *; rewrite Hch; apply Hins; reflexivity.
  - assert (j <> channelId) as Hj by congruence.
    unfold closeChannel, try_catch, bind, gets, call, lift, logger, ret, modify.
    destruct (sessions w !! j) as [s|]; cbn;
      [destruct (sock_logout (socket s)); cbn|];
      rewrite ?lookup_delete_ne by exact Hj; exact Hc.
  - unfold sendTextMessage, applyMessageDelay, formatWhatsAppNumberM, getSocket,
      try_catch, bind, gets, call, lift, sleep, logger, throw, ret, modify.
    repeat (case_match; simplify_eq; cbn in * ); exact Hc.
  - unfold checkNumber, formatWhatsAppNumberM, getSocket,
      try_catch, bind, gets, call, lift, logger, throw, ret, modify.
    repeat (case_match; simplify_eq; cbn in * ); exact Hc.
Qed.

Lemma run_keeps_record (channelId : string) (during : list Action) (w : World) :
  Forall (fun a => a <> ActClose channelId) during ->
  is_Some (channels w !! channelId) ->
  is_Some (channels (run P during w) !! channelId).
Proof.
  intros Hduring. revert w.
  induction Hduring as [|a rest Ha _ IH]; intros w Hc; cbn [run]; [exact Hc|].
  apply IH, perform_keeps_record; assumption.
Qed.

(** A call during whose wait the channel is not closed: once the first
    part of [createChannel] has returned, a race that ends by the 15 s
    timer does not make the call throw; the timeout is logged as a warning,
    the [qrPromises] entry is deleted, and the call returns the id with the
    status and the [qrCode] of the record as the wait left it. *)
Lemma createChannel_timeout_returns
    (channelId : string) (during : list Action) (w w1 : World) :
  Forall (fun a => a <> ActClose channelId) during ->
  createChannel_start P channelId w = (w1, Ok tt) ->
  exists w3 c,
    channels (run P during w1) !! channelId = Some c
    /\ createChannel P channelId during TimedOut w
       = (w3, Ok {| cd_channelId := channelId;
                    cd_status := Some (status c);
                    cd_qrCode := qrCode c |})
    /\ w3 = set_qrPromises (delete channelId)
              (set_log (fun l => (l ++ [mkLog LWarn ("Timeout aguardando QR Code para "
                                                     ++ channelId) None])%list)
                 (run P during w1))
    /\ qrPromises w3 !! channelId = None.
Proof.
  intros Hduring Hstart.
  pose proof (createChannel_start_registers channelId w w1 Hstart) as Hreg.
  destruct (run_keeps_record channelId during w1 Hduring Hreg) as [c Hc].
  eexists. exists c.
  split; [exact Hc|].
  split; [|split; [reflexivity|]].
  - unfold createChannel. unfold bind at 1. rewrite Hstart.
    unfold bind at 1, modify.
    apply createChannel_resume_timeout, Hc.
  - cbn. apply lookup_delete_eq.
Qed.

(** C7. The call does fail when the channel is closed while it waits.
    Once the first part of [createChannel] has returned (which it does on a
    fresh id only), if what happens during the wait leaves no record for
    the id (a [closeChannel] of the id that went through), a race that ends
    by the 15 s timer makes [createChannel] throw: the return statement
    reads [.status] of [this.channels.get(channelId)], which is
    [undefined].  The timeout was absorbed and the [qrPromises] entry
    deleted before that; the [TypeError] is logged by the outer [catch] and
    passed on to the caller. *)
Theorem createChannel_timeout_throws_when_closed
    (channelId : string) (during : list Action) (w w1 : World) :
  createChannel_start P channelId w = (w1, Ok tt) ->
  channels (run P during w1) !! channelId = None ->
  exists w3,
    createChannel P channelId during TimedOut w
    = (w3, Throw (mkError "Cannot read properties of undefined (reading 'status')"))
    /\ In (mkLog LWarn ("Timeout aguardando QR Code para " ++ channelId) None) (log w3)
    /\ last (log w3)
       = Some (mkLog LError ("Erro ao criar canal " ++ channelId ++ ":")
                 (Some "Cannot read properties of undefined (reading 'status')"))
    /\ qrPromises w3 !! channelId = None
    /\ channels w3 !! channelId = None.
Proof.
  intros Hstart Hgone.
  unfold createChannel. unfold bind at 1. rewrite Hstart.
  unfold bind at 1, modify.
  unfold createChannel_resume, createChannel_catch, try_catch, try_finally,
    bind, throw, logger, modify, gets, ret.
  cbn. rewrite Hgone.
  eexists. split; [reflexivity|]. cbn.
  split; [|split; [|split]].
  - rewrite in_app_iff. left. rewrite in_app_iff. right. left. reflexivity.
  - apply last_snoc.
  - apply lookup_delete_eq.
  - exact Hgone.
Qed.

End Pairing.

Lemma createChannel_timeout_throws_when_closed_witness :
  let during := [ActClose "acme"] in
  let w1 := (createChannel_start Sample.provider "acme" Sample.fresh).1 in
  createChannel_start Sample.provider "acme" Sample.fresh = (w1, Ok tt)
  /\ channels (run Sample.provider during w1) !! "acme" = None
  /\ exists w3,
       createChannel Sample.provider "acme" during TimedOut Sample.fresh
       = (w3, Throw (mkError "Cannot read properties of undefined (reading 'status')"))
       /\ In (mkLog LWarn ("Timeout aguardando QR Code para " ++ "acme") None) (log w3)
       /\ last (log w3)
          = Some (mkLog LError ("Erro ao criar canal " ++ "acme" ++ ":")
                    (Some "Cannot read properties of undefined (reading 'status')"))
       /\ qrPromises w3 !! "acme" = None
       /\ channels w3 !! "acme" = None.
Proof.
  intros during w1.
  split; [vm_compute; reflexivity|].
  split; [vm_compute; reflexivity|].
  apply (createChannel_timeout_throws_when_closed Sample.provider "acme" during
           Sample.fresh w1).
  - vm_compute. reflexivity.
  - vm_compute. reflexivity.
Defined.

(** The same call with nothing but socket events during the wait
    returns. *)
Example createChannel_timeout_scenario :
  (createChannel Sample.provider "acme"
     [ActEvent "acme" (mkUpdate (Some ConnConnecting) None None)] TimedOut Sample.fresh).2
  = Ok {| cd_channelId := "acme";
          cd_status := Some CONNECTING;
          cd_qrCode := QrNull |}.
Proof. vm_compute. reflexivity. Qed.

(** The route then answers 500 to the caller that was creating the
    channel. *)
Example post_channels_closed_during_wait :
  (post_channels Sample.provider (Some "acme") [ActClose "acme"] TimedOut Sample.fresh).2
  = Ok (mkReply 500 false (Some "INTERNAL_ERROR")
          (Some "Cannot read properties of undefined (reading 'status')") None).
Proof. vm_compute. reflexivity. Qed.

(** The pairing scenario: [create] of [acme], the provider issues the
    pairing code [1@XYZ], the QR promise wins the race. *)
Example createChannel_pairing_scenario :
  (createChannel Sample.provider "acme"
     [ActEvent "acme" (mkUpdate None None (Some "1@XYZ"))] QrResolved Sample.fresh).2
  = Ok {| cd_channelId := "acme";
          cd_status := Some QRCODE;
          cd_qrCode := QrData "data:image/png;base64,1@XYZ" |}.
Proof. vm_compute. reflexivity. Qed.

(** The return statement reads [this.channels.get(channelId).status] with
    no test: in a state whose record for the id is gone, the second part
    throws. *)
Example createChannel_resume_without_record :
  (createChannel_resume "acme" TimedOut Sample.fresh).2
  = Throw (mkError "Cannot read properties of undefined (reading 'status')").
Proof. vm_compute. reflexivity. Qed.

(** ** The regenerate route *)

(** C8. For an id with no channel record, [POST /channels/:channelId/qrcode]
    answers 404 [CHANNEL_NOT_FOUND] and the whole state is as before:
    [regenerateQRCode] is not called, so no session is retired, no
    credential folder is removed and no connection attempt starts. *)
Theorem regenerate_unknown_channel (P : Provider) (channelId : string) (w : World) :
  channels w !! channelId = None ->
  post_qrcode P channelId w
  = (w, Ok (mkResponse 404 false (Some "CHANNEL_NOT_FOUND")
              (Some "Canal não encontrado") None)).
Proof.
  intros Habsent.
  unfold post_qrcode, try_catch, bind, gets, getChannelStatus.
  rewrite Habsent. reflexivity.
Qed.

Lemma regenerate_unknown_channel_witness :
  channels Sample.fresh !! "ghost" = None
  /\ post_qrcode Sample.provider "ghost" Sample.fresh
     = (Sample.fresh, Ok (mkResponse 404 false (Some "CHANNEL_NOT_FOUND")
                            (Some "Canal não encontrado") None)).
Proof.
  split; [reflexivity|].
  apply (regenerate_unknown_channel Sample.provider "ghost" Sample.fresh).
  reflexivity.
Defined.

(** The method [regenerateQRCode] has no such test of its own: called on
    an unknown id with collaborators that succeed, it installs a session. *)
Example regenerateQRCode_has_no_guard :
  let w' := (regenerateQRCode Sample.provider "ghost" Sample.fresh).1 in
  channels w' !! "ghost" = None /\ is_Some (sessions w' !! "ghost").
Proof. vm_compute. split; [reflexivity|eauto]. Qed.

(** ** Sending a text message *)

(** C9. When the channel has no record, or a record whose status is not
    [CONNECTED], [sendTextMessage] throws an error with message
    [CHANNEL_NOT_CONNECTED]; the only effect is two error lines of the
    logger: no number is formatted (that would log a debug line), no call is
    made on any socket, [lastMessageTime] and the clock are untouched. *)
Theorem sendTextMessage_requires_connected (channelId to text : string) (w : World) :
  (channels w !! channelId = None
   \/ exists c, channels w !! channelId = Some c /\ status c <> CONNECTED) ->
  exists w',
    sendTextMessage channelId to text w = (w', Throw (mkError "CHANNEL_NOT_CONNECTED"))
    /\ w' = set_log (fun l => (l ++ [mkLog LError ("Erro ao enviar mensagem (" ++ channelId ++ "):")
                                       (Some "CHANNEL_NOT_CONNECTED");
                                    mkLog LError "Stack:" None])%list) w
    /\ wire w' = wire w.
Proof.
  intros Hstatus.
  assert (isChannelConnected w channelId = false) as Hconn.
  { unfold isChannelConnected.
    destruct Hstatus as [->|(c & -> & Hc)]; [reflexivity|].
    now apply bool_decide_eq_false_2. }
  unfold sendTextMessage, try_catch, bind, gets, throw, logger, modify.
  rewrite Hconn. cbn.
  eexists. split; [reflexivity|]. split; [|reflexivity].
  unfold set_log. cbn. now rewrite <- app_assoc.
Qed.

Lemma sendTextMessage_requires_connected_witness :
  (channels Sample.fresh !! "acme" = None
   \/ exists c, channels Sample.fresh !! "acme" = Some c /\ status c <> CONNECTED)
  /\ exists w',
       sendTextMessage "acme" "(11) 99999-0000" "oi" Sample.fresh
       = (w', Throw (mkError "CHANNEL_NOT_CONNECTED"))
       /\ w' = set_log (fun l => (l ++ [mkLog LError ("Erro ao enviar mensagem (" ++ "acme" ++ "):")
                                          (Some "CHANNEL_NOT_CONNECTED");
                                       mkLog LError "Stack:" None])%list) Sample.fresh
       /\ wire w' = wire Sample.fresh.
Proof.
  split; [left; reflexivity|].
  apply (sendTextMessage_requires_connected "acme" "(11) 99999-0000" "oi" Sample.fresh).
  left. reflexivity.
Defined.

(** On a connected channel the number is formatted, verified and the text
    sent, in that order. *)
Example sendTextMessage_connected :
  let r := sendTextMessage "acme" "(11) 99999-0000" "oi"
             (Sample.live (Sample.a_socket (Ok tt)) 0) in
  r.2 = Ok (mkSendResult "3EB0" "5511999990000@s.whatsapp.net" "oi")
  /\ wire r.1 = [CallOnWhatsApp "acme" "5511999990000@s.whatsapp.net";
                 CallSendMessage "acme" "5511999990000@s.whatsapp.net" "oi"]
  /\ lastMessageTime r.1 !! "acme" = Some 100.
Proof. vm_compute. repeat split; reflexivity. Qed.

(** * Further properties *)

(** ** The event handler, beyond the transitions above *)

Section HandlerFrame.

Context (P : Provider).

Local Ltac handler_cases :=
  unfold handleConnectionUpdate, on_qr, on_close, on_open, on_connecting,
    handleQRCode, try_catch, bind, lift, logger, gets, channels_set,
    settle_qrPromise, ret, modify;
  repeat (case_match; simplify_eq; cbn in * ).

(** One run of the handler: what it leaves alone. *)
Lemma handler_frame (channelId : string) (update : Update) (w : World) :
  exists w',
    handleConnectionUpdate P channelId update w = (w', Ok tt)
    /\ (forall j, is_Some (channels w !! j) -> is_Some (channels w' !! j))
    /\ (forall j, sessions w !! j = None -> sessions w' !! j = None)
    /\ authStore w' = authStore w
    /\ channelDirs w' = channelDirs w
    /\ connectingChannels w' = connectingChannels w
    /\ wire w' = wire w
    /\ lastMessageTime w' = lastMessageTime w
    /\ clock w' = clock w.
Proof.
  destruct (handleConnectionUpdate P channelId update w) as [w' r] eqn:Hrun.
  revert Hrun. handler_cases; intros; simplify_eq; cbn;
    (eexists; split; [reflexivity|]); cbn;
    repeat split; auto; intros j Hj;
    rewrite ?lookup_insert_is_Some', ?lookup_delete_None; auto.
Qed.

(** X1. The handler of an event of one channel leaves the record, the
    session and the pairing wait of every other channel as they were, and
    any reconnect callback it adds is for its own channel. *)
Theorem handler_touches_one_channel (channelId : string) (update : Update) (w : World) (j : string) :
  j <> channelId ->
  let w' := (handleConnectionUpdate P channelId update w).1 in
  channels w' !! j = channels w !! j
  /\ sessions w' !! j = sessions w !! j
  /\ qrPromises w' !! j = qrPromises w !! j
  /\ (forall t, In t (timers w') -> In t (timers w) \/ timer_channel t = channelId).
Proof.
  intros Hne.
  destruct (handleConnectionUpdate P channelId update w) as [w' r] eqn:Hrun.
  revert Hrun. handler_cases; intros; simplify_eq; cbn;
    rewrite ?lookup_insert_ne, ?lookup_delete_ne, ?lookup_alter_ne by congruence;
    repeat split; auto;
    intros t [Ht|[<-|[]]]%in_app_or; auto.
Qed.

(** X2. Any sequence of events is handled without a throw, and it removes
    no channel record, installs no session, and leaves the credential
    folders, the start guard, the calls made on sockets, the send times and
    the clock as they were. *)
Theorem events_frame (events : list (string * Update)) (w : World) :
  exists w',
    deliver P events w = (w', Ok tt)
    /\ (forall j, is_Some (channels w !! j) -> is_Some (channels w' !! j))
    /\ (forall j, sessions w !! j = None -> sessions w' !! j = None)
    /\ authStore w' = authStore w
    /\ channelDirs w' = channelDirs w
    /\ connectingChannels w' = connectingChannels w
    /\ wire w' = wire w
    /\ lastMessageTime w' = lastMessageTime w
    /\ clock w' = clock w.
Proof.
  revert w. induction events as [|[channelId update] rest IH]; intros w.
  - exists w. repeat split; auto.
  - cbn [deliver]. unfold bind.
    destruct (handler_frame channelId update w)
      as (w1 & -> & Hc1 & Hs1 & Ha1 & Hd1 & Hg1 & Hw1 & Hl1 & Hk1).
    destruct (IH w1) as (w2 & -> & Hc2 & Hs2 & Ha2 & Hd2 & Hg2 & Hw2 & Hl2 & Hk2).
    exists w2. split; [reflexivity|].
    repeat split; auto; congruence.
Qed.

(** X3. Only [open] clears a QR code: an event with no QR payload and a
    [connection] other than [open] (a close of either kind, [connecting],
    or none) keeps the [qrCode] of the record it finds. *)
Theorem qrCode_cleared_only_by_open (channelId : string) (update : Update) (w : World) (c : Channel) :
  channels w !! channelId = Some c ->
  qr update = None ->
  connection update <> Some ConnOpen ->
  exists w' c',
    handleConnectionUpdate P channelId update w = (w', Ok tt)
    /\ channels w' !! channelId = Some c'
    /\ qrCode c' = qrCode c.
Proof.
  intros Hc Hqr Hopen.
  destruct (handleConnectionUpdate P channelId update w) as [w' r] eqn:Hrun.
  revert Hrun. handler_cases; intros; simplify_eq; cbn;
    eexists _, _; (split; [reflexivity|]); cbn;
    rewrite ?lookup_insert_eq;
    first [ split; [reflexivity|]; cbn; rewrite Hc; reflexivity | eauto ].
Qed.

(** X4. An event with a QR payload the encoder accepts, and no
    [connection] field, leaves the channel [QRCODE] with the encoded image,
    keeps its attempt count, and resolves the pairing wait of the channel if
    one is pending; sessions and timers are not touched. *)
Theorem qr_event_publishes_code (channelId q url : string) (update : Update) (w : World) :
  qr update = Some q ->
  JsString.truthy q = true ->
  toDataURL P q = Ok url ->
  connection update = None ->
  exists w',
    handleConnectionUpdate P channelId update w = (w', Ok tt)
    /\ channels w' !! channelId
       = Some (mkChannel QRCODE (QrData url) (clock w)
                 (prior_attempts (channels w !! channelId)))
    /\ qrPromises w' !! channelId = settle Resolved <$> qrPromises w !! channelId
    /\ sessions w' = sessions w
    /\ timers w' = timers w.
Proof.
  intros Hqr Htruthy Hurl Hconn.
  destruct (handleConnectionUpdate P channelId update w) as [w' r] eqn:Hrun.
  revert Hrun. handler_cases; intros; simplify_eq; cbn.
  eexists. split; [reflexivity|]. cbn.
  rewrite lookup_insert_eq, lookup_alter_eq. auto.
Qed.

(** X5. When the encoder rejects the QR payload the handler still returns
    normally: the error is logged, the channel records are as before, and a
    pending pairing wait of the channel is rejected with that error. *)
Theorem qr_encode_failure_absorbed (channelId q : string) (e : JsError) (update : Update) (w : World) :
  qr update = Some q ->
  JsString.truthy q = true ->
  toDataURL P q = Throw e ->
  connection update = None ->
  exists w',
    handleConnectionUpdate P channelId update w = (w', Ok tt)
    /\ channels w' = channels w
    /\ qrPromises w' !! channelId = settle (Rejected e) <$> qrPromises w !! channelId
    /\ sessions w' = sessions w
    /\ timers w' = timers w.
Proof.
  intros Hqr Htruthy Hurl Hconn.
  destruct (handleConnectionUpdate P channelId update w) as [w' r] eqn:Hrun.
  revert Hrun. handler_cases; intros; simplify_eq; cbn.
  eexists. split; [reflexivity|]. cbn.
  rewrite lookup_alter_eq. auto.
Qed.

End HandlerFrame.

(** ** Reconnection over several events *)

Section Reconnection.

Context (P : Provider).

Lemma backoff_uncapped (n : Z) :
  0 <= n <= 4 -> Z.min (3000 * 2 ^ n) 60000 = 3000 * 2 ^ n.
Proof.
  intros Hn.
  assert (n = 0 \/ n = 1 \/ n = 2 \/ n = 3 \/ n = 4) as Hcases by lia.
  destruct Hcases as [->|[->|[->|[->| ->]]]]; reflexivity.
Qed.

(** One close with no QR payload and a cause other than logged-out, while
    the budget lasts. *)
Lemma close_step (channelId : string) (code : option Z) (w : World) :
  code <> Some loggedOut ->
  0 <= currentAttempts w channelId <= 4 ->
  exists w',
    handleConnectionUpdate P channelId (mkUpdate (Some ConnClose) code None) w = (w', Ok tt)
    /\ channels w' !! channelId
       = Some (mkChannel RECONNECTING (prior_qrCode (channels w !! channelId)) (clock w)
                 (Some (currentAttempts w channelId + 1)))
    /\ timers w' = (timers w ++ [mkTimer (3000 * 2 ^ currentAttempts w channelId) channelId])%list.
Proof.
  intros Hcode Hn.
  unfold handleConnectionUpdate, on_qr, on_close, on_open, on_connecting,
    bind, logger, gets, channels_set, ret, modify.
  cbn [qr connection statusCode].
  rewrite (bool_decide_eq_false_2 _ Hcode). cbn [negb set_log channels].
  fold (currentAttempts w channelId).
  assert ((currentAttempts w channelId + 1 <=? 5) = true) as -> by (apply Z.leb_le; lia).
  replace (currentAttempts w channelId + 1 - 1) with (currentAttempts w channelId) by lia.
  rewrite (backoff_uncapped _ Hn).
  eexists. split; [reflexivity|].
  cbn [channels timers set_timers set_channels set_log clock].
  rewrite lookup_insert_eq. split; reflexivity.
Qed.

Lemma closes_run (channelId : string) (code : option Z) (k : nat) :
  code <> Some loggedOut ->
  forall (w : World) (n : Z),
    currentAttempts w channelId = n ->
    0 <= n ->
    n + Z.of_nat k <= 5 ->
    exists w',
      deliver P (repeat (channelId, mkUpdate (Some ConnClose) code None) k) w = (w', Ok tt)
      /\ currentAttempts w' channelId = n + Z.of_nat k
      /\ timers w'
         = (timers w
            ++ List.map (fun i => mkTimer (3000 * 2 ^ (n + Z.of_nat i)) channelId) (seq 0 k))%list
      /\ ((0 < k)%nat ->
          exists c, channels w' !! channelId = Some c
                    /\ status c = RECONNECTING
                    /\ reconnectAttempts c = Some (n + Z.of_nat k)).
Proof.
  intros Hcode. induction k as [|k IH]; intros w n Hn H0 Hk.
  - exists w. cbn. rewrite app_nil_r, Z.add_0_r. repeat split; auto. lia.
  - cbn [repeat deliver]. unfold bind.
    destruct (close_step channelId code w Hcode) as (w1 & -> & Hc1 & Ht1); [lia|].
    rewrite Hn in Hc1, Ht1.
    assert (currentAttempts w1 channelId = n + 1) as Hn1.
    { unfold currentAttempts. rewrite Hc1. cbn.
      destruct (n + 1 =? 0) eqn:E; [apply Z.eqb_eq in E; lia|reflexivity]. }
    destruct (IH w1 (n + 1) Hn1) as (w2 & Hd2 & Hn2 & Ht2 & Hc2); [lia|lia|].
    rewrite Hd2.
    exists w2. split; [reflexivity|].
    split; [lia|]. split.
    + rewrite Ht2, Ht1, <- app_assoc. f_equal.
      cbn [seq List.map app]. rewrite Z.add_0_r. f_equal.
      rewrite <- seq_shift, List.map_map.
      apply List.map_ext. intros i.
      replace (n + Z.of_nat (S i)) with (n + 1 + Z.of_nat i) by lia. reflexivity.
    + intros _. destruct k as [|k'].
      * cbn in Hd2. injection Hd2 as <-.
        eexists. split; [exact Hc1|]. split; reflexivity.
      * destruct Hc2 as (c & Hc & Hs & Ha); [lia|].
        exists c. repeat split; auto. rewrite Ha. f_equal. lia.
Qed.

(** X6. While the budget lasts, [k] closes in a row (cause other than
    logged-out, no QR payload) starting from attempt count [n] leave the
    channel [RECONNECTING] with count [n + k], and add one reconnect
    callback per close, with the delays [3000 * 2^n], [3000 * 2^(n+1)], ...
    in that order; the cap of 60000 is not reached. *)
Theorem consecutive_closes (channelId : string) (code : option Z) (k : nat) (w : World) (n : Z) :
  code <> Some loggedOut ->
  currentAttempts w channelId = n ->
  0 <= n ->
  n + Z.of_nat k <= 5 ->
  (0 < k)%nat ->
  exists w' c,
    deliver P (repeat (channelId, mkUpdate (Some ConnClose) code None) k) w = (w', Ok tt)
    /\ channels w' !! channelId = Some c
    /\ status c = RECONNECTING
    /\ reconnectAttempts c = Some (n + Z.of_nat k)
    /\ timers w'
       = (timers w
          ++ List.map (fun i => mkTimer (3000 * 2 ^ (n + Z.of_nat i)) channelId) (seq 0 k))%list.
Proof.
  intros Hcode Hn H0 Hk Hpos.
  destruct (closes_run channelId code k Hcode w n Hn H0 Hk) as (w' & Hd & _ & Ht & Hc).
  destruct (Hc Hpos) as (c & Hc' & Hs & Ha).
  exists w', c. auto.
Qed.

End Reconnection.

(** ** What holds in every state the process can reach *)

Section Reachable.

Context (P : Provider).

(** [initializeSession] writes neither the channels, nor the timers, nor
    the pairing waits, nor the send times. *)
Lemma initializeSession_frame (channelId : string) (forceNew : bool) (w : World) :
  let w' := (initializeSession P channelId forceNew w).1 in
  channels w' = channels w
  /\ timers w' = timers w
  /\ qrPromises w' = qrPromises w
  /\ lastMessageTime w' = lastMessageTime w.
Proof.
  unfold initializeSession, try_finally, try_catch, bind, gets, logger,
    call, lift, sleep, ret, throw, modify.
  repeat (case_match; simplify_eq; cbn in * ); auto.
Qed.

Local Ltac with_initializeSession :=
  match goal with
  | |- context [initializeSession P ?id ?force ?w0] =>
      let H := fresh "Hframe" in
      pose proof (initializeSession_frame id force w0) as H;
      cbn zeta in H;
      destruct (initializeSession P id force w0) as [? [[]|?]];
      cbn [fst] in H; destruct H as (? & ? & ? & ?)
  end.

Local Ltac settle_mild :=
  split; [cbn in *; congruence|];
  let j := fresh "j" in let c := fresh "c" in let Hj := fresh "Hj" in
  intros j c Hj; cbn in *;
  repeat match goal with
         | H : channels _ = _ |- _ => rewrite H in Hj; clear H
         end;
  cbn in Hj;
  repeat first
    [ apply lookup_insert_Some in Hj as [[_ <-]|[_ Hj]]; [right; reflexivity|]
    | apply lookup_delete_Some in Hj as [_ Hj] ];
  auto.

Lemma adds_no_attempts_keeps (w w' : World) :
  adds_no_attempts w w' ->
  attempts_bounded w /\ delays_in_table w ->
  attempts_bounded w' /\ delays_in_table w'.
Proof.
  intros [Ht Hc] [Hb Hd]. split.
  - intros j c n Hj Hn. destruct (Hc j c Hj) as [Hold|Hnone].
    + eapply Hb; eauto.
    + congruence.
  - unfold delays_in_table. rewrite Ht. exact Hd.
Qed.

Lemma fire_adds_no_attempts (t : Timer) (w : World) :
  adds_no_attempts w (fire P t w).1.
Proof.
  unfold fire, bind, modify. with_initializeSession; settle_mild.
Qed.

Lemma createChannel_start_adds_no_attempts (channelId : string) (w : World) :
  adds_no_attempts w (createChannel_start P channelId w).1.
Proof.
  unfold createChannel_start, createChannel_catch, try_catch, bind, gets, lift, ret,
    channels_set, logger, throw, modify.
  destruct (bool_decide (is_Some (channels w !! channelId))); cbn.
  - settle_mild.
  - destruct (bool_decide (channelId ∈ channelDirs w)); cbn;
      [|destruct (mkdirSync P channelId) as [[]|e0]; cbn; [|settle_mild]];
      with_initializeSession; settle_mild.
Qed.

Lemma createChannel_resume_adds_no_attempts (channelId : string) (o : RaceOutcome) (w : World) :
  adds_no_attempts w (createChannel_resume channelId o w).1.
Proof.
  unfold createChannel_resume, createChannel_catch, try_catch, try_finally,
    bind, gets, logger, throw, ret, modify.
  destruct o; cbn; destruct (channels w !! channelId); cbn; settle_mild.
Qed.

Lemma regenerateQRCode_adds_no_attempts (channelId : string) (w : World) :
  adds_no_attempts w (regenerateQRCode P channelId w).1.
Proof.
  unfold regenerateQRCode, try_catch, bind, gets, logger, call, lift, sleep,
    throw, ret, modify.
  cbn. destruct (sessions w !! channelId) as [s|]; cbn;
    [destruct (sock_end (socket s)); cbn|];
    with_initializeSession; settle_mild.
Qed.

Lemma restoreSession_adds_no_attempts (channelId : string) (w : World) :
  adds_no_attempts w (restoreSession P channelId w).1.
Proof.
  unfold restoreSession, try_catch, bind, gets, channels_set, logger, throw, ret, modify.
  destruct (isChannelConnected w channelId); cbn; [settle_mild|].
  destruct (bool_decide (channelId ∈ channelDirs w)); cbn; [|settle_mild].
  with_initializeSession; settle_mild.
Qed.

Lemma closeChannel_adds_no_attempts (channelId : string) (w : World) :
  adds_no_attempts w (closeChannel channelId w).1.
Proof.
  unfold closeChannel, try_catch, bind, gets, call, lift, logger, ret, modify.
  destruct (sessions w !! channelId) as [s|]; cbn;
    [destruct (sock_logout (socket s)); cbn|]; settle_mild.
Qed.

Lemma sendTextMessage_adds_no_attempts (channelId to text : string) (w : World) :
  adds_no_attempts w (sendTextMessage channelId to text w).1.
Proof.
  unfold sendTextMessage, applyMessageDelay, formatWhatsAppNumberM, getSocket,
    try_catch, bind, gets, call, lift, sleep, logger, throw, ret, modify.
  repeat (case_match; simplify_eq; cbn in * ); settle_mild.
Qed.

Lemma checkNumber_adds_no_attempts (channelId number : string) (w : World) :
  adds_no_attempts w (checkNumber channelId number w).1.
Proof.
  unfold checkNumber, formatWhatsAppNumberM, getSocket,
    try_catch, bind, gets, call, lift, logger, throw, ret, modify.
  repeat (case_match; simplify_eq; cbn in * ); settle_mild.
Qed.

Lemma backoff_in_table (n : Z) :
  0 <= n <= 4 -> In (Z.min (3000 * 2 ^ n) 60000) backoff_delays.
Proof.
  intros Hn.
  assert (n = 0 \/ n = 1 \/ n = 2 \/ n = 3 \/ n = 4) as Hcases by lia.
  destruct Hcases as [->|[->|[->|[->| ->]]]]; cbn; auto 6.
Qed.

Lemma handler_keeps_bounds (channelId : string) (update : Update) (w : World) :
  attempts_bounded w /\ delays_in_table w ->
  let w' := (handleConnectionUpdate P channelId update w).1 in
  attempts_bounded w' /\ delays_in_table w'.
Proof.
  intros [Hb Hd]. cbn zeta.
  unfold handleConnectionUpdate, bind.
  destruct (on_qr_effect P channelId update w) as (w1 & -> & _ & Htimers & _ & Hch).
  pose proof (on_qr_bounded w w1 channelId Hb Hch) as Hb1.
  pose proof (currentAttempts_bounded w1 channelId Hb1) as Hcur.
  assert (delays_in_table w1) as Hd1 by (unfold delays_in_table; rewrite Htimers; exact Hd).
  unfold on_close, on_open, on_connecting.
  destruct (connection update) as [[| |]|].
  - destruct (bool_decide (statusCode update = Some loggedOut)).
    + unfold bind, logger, modify, gets, channels_set, ret. cbn. split.
      * eapply attempts_bounded_insert; [exact Hb1|reflexivity|].
        cbn. intros n Hn. eapply prior_attempts_bounded; eauto.
      * exact Hd1.
    + unfold bind, logger, modify, gets, channels_set, ret.
      cbn [negb set_log channels fst].
      fold (currentAttempts w1 channelId).
      destruct (currentAttempts w1 channelId + 1 <=? 5) eqn:Hle; cbn.
      * apply Z.leb_le in Hle. split.
        -- eapply attempts_bounded_insert; [exact Hb1|reflexivity|].
           cbn. intros n Hn. injection Hn as <-. lia.
        -- intros t [Ht|[<-|[]]]%in_app_or; [auto|].
           cbn [timer_delay].
           replace (currentAttempts w1 channelId + 1 - 1)
             with (currentAttempts w1 channelId) by lia.
           apply backoff_in_table. lia.
      * split; [|exact Hd1].
        eapply attempts_bounded_insert; [exact Hb1|reflexivity|].
        cbn. intros n Hn. injection Hn as <-. lia.
  - unfold bind, logger, modify, gets, channels_set, ret. cbn. split; [|exact Hd1].
    eapply attempts_bounded_insert; [exact Hb1|reflexivity|].
    cbn. intros n Hn. injection Hn as <-. lia.
  - unfold bind, logger, modify, gets, channels_set, ret. cbn. split; [|exact Hd1].
    eapply attempts_bounded_insert; [exact Hb1|reflexivity|].
    cbn. intros n Hn. eapply prior_attempts_bounded; eauto.
  - unfold bind, ret. cbn. auto.
Qed.

Lemma perform_keeps_bounds (a : Action) (w : World) :
  attempts_bounded w /\ delays_in_table w ->
  attempts_bounded (perform P a w) /\ delays_in_table (perform P a w).
Proof.
  intros Hw. destruct a; cbn [perform].
  - apply handler_keeps_bounds, Hw.
  - eapply adds_no_attempts_keeps; [apply fire_adds_no_attempts|exact Hw].
  - eapply adds_no_attempts_keeps; [apply createChannel_start_adds_no_attempts|exact Hw].
  - eapply adds_no_attempts_keeps; [apply createChannel_resume_adds_no_attempts|exact Hw].
  - eapply adds_no_attempts_keeps; [apply regenerateQRCode_adds_no_attempts|exact Hw].
  - eapply adds_no_attempts_keeps; [apply restoreSession_adds_no_attempts|exact Hw].
  - eapply adds_no_attempts_keeps; [apply closeChannel_adds_no_attempts|exact Hw].
  - eapply adds_no_attempts_keeps; [apply sendTextMessage_adds_no_attempts|exact Hw].
  - eapply adds_no_attempts_keeps; [apply checkNumber_adds_no_attempts|exact Hw].
Qed.

(** X7. Whatever the callers, the sockets and the timers do, in whatever
    order (events, timers firing, create, regenerate, restore, close, send,
    check), and whether the calls return or throw: every stored
    [reconnectAttempts] stays within 0..5 and every reconnect callback ever
    handed to [setTimeout] has one of the delays 3000, 6000, 12000, 24000,
    48000 ms, so that the cap of 60000 never applies. *)
Theorem bounds_hold_in_every_run (actions : list Action) (w : World) :
  attempts_bounded w ->
  delays_in_table w ->
  attempts_bounded (run P actions w) /\ delays_in_table (run P actions w).
Proof.
  revert w. induction actions as [|a rest IH]; intros w Hb Hd; cbn [run].
  - auto.
  - destruct (perform_keeps_bounds a w (conj Hb Hd)) as [Hb' Hd'].
    apply IH; assumption.
Qed.

End Reachable.

(** ** Connection attempts *)

Section Attempts.

Context (P : Provider).

Local Ltac attempt_cases :=
  unfold initializeSession, try_finally, try_catch, bind, gets, logger,
    call, lift, sleep, ret, throw, modify;
  repeat (case_match; simplify_eq; cbn in * ).

Lemma guard_handed_back (channelId : string) (guard : gset string) :
  channelId ∉ guard -> ({[channelId]} ∪ guard) ∖ {[channelId]} = guard.
Proof.
  intros Hfree. apply set_eq. intros x.
  rewrite elem_of_difference, elem_of_union, elem_of_singleton.
  split.
  - intros [[->|Hx] Hne]; [contradiction|exact Hx].
  - intros Hx. split; [auto|]. intros ->. contradiction.
Qed.

(** X8. A call of [initializeSession] that did start (the id was not
    mid-start) hands the guard back whatever happens: after it returns or
    throws, [connectingChannels] is what it was before the call. *)
Theorem initializeSession_releases_guard (channelId : string) (forceNew : bool) (w : World) :
  channelId ∉ connectingChannels w ->
  connectingChannels (initializeSession P channelId forceNew w).1 = connectingChannels w.
Proof.
  intros Hfree.
  destruct (initializeSession P channelId forceNew w) as [w' r] eqn:Hrun.
  revert Hrun. attempt_cases; intros; simplify_eq; cbn;
    first [ apply guard_handed_back; assumption
          | exfalso;
            match goal with
            | H : bool_decide _ = true |- _ => apply bool_decide_eq_true_1 in H
            end; contradiction ].
Qed.

(** A call that did start, with collaborators that succeed: the session
    it leaves. *)
Lemma initializeSession_success
    (channelId version : string) (forceNew : bool) (sk : Socket) (w : World) :
  channelId ∉ connectingChannels w ->
  useMultiFileAuthState P channelId = Ok tt ->
  fetchLatestBaileysVersion P = Ok version ->
  makeWASocket P channelId = Ok sk ->
  exists w',
    initializeSession P channelId forceNew w = (w', Ok tt)
    /\ sessions w' = <[channelId := mkSession sk channelId]> (sessions w)
    /\ channels w' = channels w.
Proof.
  intros Hfree Hauth Hversion Hsocket.
  apply (bool_decide_eq_false_2 _) in Hfree.
  destruct (initializeSession P channelId forceNew w) as [w' r] eqn:Hrun.
  revert Hrun. attempt_cases; intros; simplify_eq; cbn;
    (eexists; split; [reflexivity|]); cbn;
    rewrite ?insert_delete_eq, ?app_nil_r; auto.
Qed.


(** The credential folder of the id after a call that succeeded. *)
Lemma initializeSession_authStore
    (channelId version : string) (forceNew : bool) (sk : Socket) (w : World) :
  channelId ∉ connectingChannels w ->
  useMultiFileAuthState P channelId = Ok tt ->
  fetchLatestBaileysVersion P = Ok version ->
  makeWASocket P channelId = Ok sk ->
  authStore (initializeSession P channelId forceNew w).1 !! channelId
  = Some (if forceNew then false
          else match authStore w !! channelId with Some b => b | None => false end).
Proof.
  intros Hfree Hauth Hversion Hsocket.
  apply (bool_decide_eq_false_2 _) in Hfree.
  assert (forall (a : gmap string bool),
            match a !! channelId with
            | Some _ => a
            | None => <[channelId := false]> a
            end !! channelId
            = Some (match a !! channelId with Some b => b | None => false end))
    as Hensure.
  { intros a. destruct (a !! channelId) as [b|] eqn:Ha;
      [exact Ha|apply lookup_insert_eq]. }
  unfold initializeSession, try_finally, try_catch, bind, gets, logger,
    call, lift, sleep, ret, throw, modify.
  rewrite Hfree. cbn.
  destruct (sessions w !! channelId) as [s|]; [destruct (sock_end (socket s))|]; cbn;
    destruct (bool_decide (is_Some (authStore w !! channelId))) eqn:Hex;
    destruct forceNew; cbn;
    rewrite Hauth; cbn; rewrite Hversion; cbn; rewrite Hsocket; cbn;
    rewrite Hensure, ?lookup_delete_eq;
    try reflexivity;
    apply bool_decide_eq_false_1 in Hex; apply eq_None_not_Some in Hex;
    rewrite Hex; reflexivity.
Qed.




End Attempts.

(** ** Closing, and what close leaves behind *)

(** A close whose [logout()], if any, succeeds: the two records go, the
    timers and the guard stay. *)
Lemma closeChannel_effect (channelId : string) (w : World) :
  (forall s, sessions w !! channelId = Some s -> sock_logout (socket s) = Ok tt) ->
  exists w',
    closeChannel channelId w = (w', Ok tt)
    /\ sessions w' = delete channelId (sessions w)
    /\ channels w' = delete channelId (channels w)
    /\ timers w' = timers w
    /\ connectingChannels w' = connectingChannels w.
Proof.
  intros Hlogout.
  unfold closeChannel, try_catch, bind, gets, call, lift, modify, logger, ret.
  destruct (sessions w !! channelId) as [s|] eqn:Hs.
  - rewrite (Hlogout s eq_refl). eexists. split; [reflexivity|]. cbn. auto 10.
  - eexists. split; [reflexivity|]. cbn. auto 10.
Qed.

(** X12. When there is no session for the id, or [logout()] succeeds,
    [closeChannel] removes exactly the session and the channel record of
    the id; it cancels no reconnect callback, deletes no credential folder
    and leaves a pending pairing wait of the id in place. *)
Theorem closeChannel_removes_only_the_records (channelId : string) (w : World) :
  (forall s, sessions w !! channelId = Some s -> sock_logout (socket s) = Ok tt) ->
  exists w',
    closeChannel channelId w = (w', Ok tt)
    /\ sessions w' = delete channelId (sessions w)
    /\ channels w' = delete channelId (channels w)
    /\ timers w' = timers w
    /\ authStore w' = authStore w
    /\ channelDirs w' = channelDirs w
    /\ qrPromises w' = qrPromises w
    /\ connectingChannels w' = connectingChannels w.
Proof.
  intros Hlogout.
  unfold closeChannel, try_catch, bind, gets, call, lift, modify, logger, ret.
  destruct (sessions w !! channelId) as [s|] eqn:Hs.
  - rewrite (Hlogout s eq_refl). eexists. split; [reflexivity|]. cbn. auto 10.
  - eexists. split; [reflexivity|]. cbn. auto 10.
Qed.

(** X13. A reconnect callback that is still pending when its channel is
    closed brings a session back: after a close that removed the records,
    firing the callback (collaborators succeeding) installs a session for the
    id although no channel record exists for it. *)
Theorem stale_timer_brings_session_back
    (P : Provider) (t : Timer) (version : string) (sk : Socket) (w : World) :
  In t (timers w) ->
  (forall s, sessions w !! timer_channel t = Some s -> sock_logout (socket s) = Ok tt) ->
  timer_channel t ∉ connectingChannels w ->
  useMultiFileAuthState P (timer_channel t) = Ok tt ->
  fetchLatestBaileysVersion P = Ok version ->
  makeWASocket P (timer_channel t) = Ok sk ->
  exists w1 w2,
    closeChannel (timer_channel t) w = (w1, Ok tt)
    /\ In t (timers w1)
    /\ fire P t w1 = (w2, Ok tt)
    /\ channels w2 !! timer_channel t = None
    /\ sessions w2 !! timer_channel t = Some (mkSession sk (timer_channel t)).
Proof.
  intros Hin Hlogout Hfree Hauth Hversion Hsocket.
  destruct (closeChannel_effect (timer_channel t) w Hlogout)
    as (w1 & Hclose & Hs1 & Hc1 & Ht1 & Hg1).
  exists w1.
  assert (timer_channel t ∉ connectingChannels (set_sessions (delete (timer_channel t)) w1))
    as Hfree1 by (cbn; rewrite Hg1; exact Hfree).
  destruct (initializeSession_success P (timer_channel t) version false sk
              (set_sessions (delete (timer_channel t)) w1) Hfree1 Hauth Hversion Hsocket)
    as (w2 & Hinit & Hs2 & Hc2).
  exists w2. split; [exact Hclose|]. split; [rewrite Ht1; exact Hin|].
  split; [unfold fire, bind, modify; exact Hinit|].
  split.
  - rewrite Hc2. cbn. rewrite Hc1. apply lookup_delete_eq.
  - rewrite Hs2. apply lookup_insert_eq.
Qed.

(** ** Creating, regenerating, restoring *)

Section Lifecycle.

Context (P : Provider).

(** X14. [createChannel] on an id that already has a record throws
    [Canal já existe] before anything is started; the record, the sessions
    and the folders are untouched, but the [catch] block deletes the
    [qrPromises] entry of the id, which is the pairing wait of the earlier
    call if that one is still waiting. *)
Theorem createChannel_on_existing_id
    (channelId : string) (during : list Action) (outcome : RaceOutcome)
    (w : World) (c : Channel) :
  channels w !! channelId = Some c ->
  createChannel P channelId during outcome w
  = (set_qrPromises (delete channelId)
       (set_log (fun l => (l ++ [mkLog LError ("Erro ao criar canal " ++ channelId ++ ":")
                                   (Some "Canal já existe")])%list) w),
     Throw (mkError "Canal já existe")).
Proof.
  intros Hc.
  unfold createChannel, createChannel_start, createChannel_catch, try_catch,
    bind, gets, throw, logger, modify.
  rewrite Hc.
  rewrite (bool_decide_eq_true_2 (is_Some (Some c))) by eauto.
  reflexivity.
Qed.

(** X15. However the race of [createChannel] ends, the call returns the
    status and [qrCode] then recorded and deletes the [qrPromises] entry.
    A rejected QR promise (the encoder failed) is handled like the timer: it
    is logged as a timeout warning and its error is not passed on to the
    caller. *)
Theorem createChannel_resume_ignores_outcome
    (channelId : string) (o : RaceOutcome) (w : World) (c : Channel) :
  channels w !! channelId = Some c ->
  exists w',
    createChannel_resume channelId o w
    = (w', Ok {| cd_channelId := channelId;
                 cd_status := Some (status c);
                 cd_qrCode := qrCode c |})
    /\ qrPromises w' = delete channelId (qrPromises w)
    /\ channels w' = channels w
    /\ sessions w' = sessions w
    /\ log w' = (log w ++ match o with
                          | QrResolved => []
                          | _ => [mkLog LWarn ("Timeout aguardando QR Code para "
                                               ++ channelId) None]
                          end)%list.
Proof.
  intros Hc.
  unfold createChannel_resume, createChannel_catch, try_catch, try_finally,
    bind, throw, logger, modify, gets, ret.
  destruct o; cbn; rewrite Hc; (eexists; split; [reflexivity|]); cbn;
    rewrite ?app_nil_r; auto.
Qed.


(** X17. [restoreSession] on a channel that is not connected and has its
    folder, when the attempt starts: the record is rewritten to [RESTORING]
    with [qrCode] null and without an attempt count, the call returns that
    status, a session is installed, and stored credentials are kept. *)
Theorem restoreSession_restores
    (channelId version : string) (sk : Socket) (w : World) :
  isChannelConnected w channelId = false ->
  channelId ∈ channelDirs w ->
  channelId ∉ connectingChannels w ->
  useMultiFileAuthState P channelId = Ok tt ->
  fetchLatestBaileysVersion P = Ok version ->
  makeWASocket P channelId = Ok sk ->
  exists w',
    restoreSession P channelId w
    = (w', Ok (Some {| cd_channelId := channelId;
                       cd_status := Some RESTORING;
                       cd_qrCode := QrUndefined |}))
    /\ channels w' !! channelId = Some (mkChannel RESTORING QrNull (clock w) None)
    /\ sessions w' !! channelId = Some (mkSession sk channelId)
    /\ authStore w' !! channelId
       = Some (match authStore w !! channelId with Some b => b | None => false end).
Proof.
  intros Hconn Hdir Hfree Hauth Hversion Hsocket.
  unfold restoreSession, try_catch, bind, gets, channels_set, logger, throw, ret, modify.
  rewrite Hconn, (bool_decide_eq_true_2 _ Hdir). cbn.
  match goal with
  | |- context [initializeSession P channelId false ?w0] =>
      destruct (initializeSession_success P channelId version false sk w0)
        as (w1 & Hinit & Hs & Hc); [exact Hfree|exact Hauth|exact Hversion|exact Hsocket|];
      pose proof (initializeSession_authStore P channelId version false sk w0
                    Hfree Hauth Hversion Hsocket) as Ha;
      rewrite Hinit in Ha |- *
  end.
  cbn in *. rewrite Hc. cbn. rewrite lookup_insert_eq. cbn.
  eexists. split; [reflexivity|].
  rewrite Hs, Hc, !lookup_insert_eq. auto.
Qed.

End Lifecycle.

(** ** The routes *)

Section RouteProperties.

Context (P : Provider).

(** X18. [POST /channels] for an id that has a record is answered 409
    [CHANNEL_ALREADY_EXISTS] with that record, and for a missing or empty
    id 400 [MISSING_CHANNEL_ID].  In both cases [createChannel] is not
    called and the state is exactly as before, the pairing wait of an
    earlier call for the id included; the route logs nothing. *)
Theorem post_channels_refuses_without_effect
    (channelId : option string) (during : list Action) (outcome : RaceOutcome)
    (w : World) :
  falsy channelId = true \/ is_Some (channels w !! field_value channelId) ->
  exists r,
    post_channels P channelId during outcome w = (w, Ok r)
    /\ reply_success r = false
    /\ (falsy channelId = true ->
        r = mkReply 400 false (Some "MISSING_CHANNEL_ID")
              (Some "channelId é obrigatório") None)
    /\ (falsy channelId = false ->
        exists c, channels w !! field_value channelId = Some c
          /\ r = mkReply 409 false (Some "CHANNEL_ALREADY_EXISTS")
                   (Some "Canal já existe")
                   (Some (PayloadStatus (field_value channelId) c))).
Proof.
  intros Hcase.
  unfold post_channels, try_catch, bind, gets, getChannelStatus, ret.
  destruct (falsy channelId) eqn:Hfalsy.
  - eexists. split; [reflexivity|]. split; [reflexivity|].
    split; [reflexivity|discriminate].
  - destruct Hcase as [Hcase|[c Hc]]; [discriminate|].
    rewrite Hc. cbn.
    eexists. split; [reflexivity|]. split; [reflexivity|].
    split; [discriminate|]. intros _. exists c. split; reflexivity.
Qed.

End RouteProperties.

(** X19. [POST /messages/text] refuses a request that lacks a field (or has
    an empty one), whose number does not have 10 to 15 digits, or whose
    channel has no record or is not [CONNECTED]: the answer is 400 or 404
    with the error code of the first test that fails, in that order, and
    the state is exactly as before: nothing is logged, formatted or sent. *)
Theorem post_text_refuses_without_effect (channelId to text : option string) (w : World) :
  falsy channelId || falsy to || falsy text
  || negb (isValidWhatsAppNumber (field_value to))
  || negb (isChannelConnected w (field_value channelId)) = true ->
  exists r,
    post_text channelId to text w = (w, Ok r)
    /\ reply_success r = false
    /\ reply_data r = None
    /\ (reply_status r, reply_error r)
       = if falsy channelId || falsy to || falsy text
         then (400, Some "MISSING_REQUIRED_FIELDS")
         else if negb (isValidWhatsAppNumber (field_value to))
         then (400, Some "INVALID_NUMBER")
         else match channels w !! field_value channelId with
              | None => (404, Some "CHANNEL_NOT_FOUND")
              | Some _ => (400, Some "CHANNEL_NOT_CONNECTED")
              end.
Proof.
  intros Hrefuse.
  unfold post_text, try_catch, bind, gets, ret, getChannelStatus.
  destruct (falsy channelId || falsy to || falsy text) eqn:Hmissing.
  - eexists. split; [reflexivity|]. auto.
  - cbn [orb] in Hrefuse.
    destruct (negb (isValidWhatsAppNumber (field_value to))) eqn:Hvalid.
    + eexists. split; [reflexivity|]. auto.
    + cbn [orb] in Hrefuse.
      destruct (channels w !! field_value channelId) as [c|] eqn:Hc.
      * rewrite Hrefuse. eexists. split; [reflexivity|]. auto.
      * eexists. split; [reflexivity|]. auto.
Qed.

(** ** Sending *)

(** The time at which [applyMessageDelay] lets the caller go on. *)
Lemma applyMessageDelay_effect (channelId : string) (w : World) :
  applyMessageDelay channelId w
  = (set_clock (fun _ => match lastMessageTime w !! channelId with
                         | Some t => if t =? 0 then clock w
                                     else Z.max (clock w) (t + MIN_DELAY_MS)
                         | None => clock w
                         end) w,
     Ok tt).
Proof.
  unfold applyMessageDelay, bind, gets, sleep, modify, ret.
  destruct w as [ss cs qs gs lm cd au tm lg wr ck]. cbn.
  destruct (lm !! channelId) as [t|]; [|reflexivity].
  destruct (t =? 0); [reflexivity|].
  destruct (ck - t <? MIN_DELAY_MS) eqn:Hlt; unfold set_clock; cbn; do 2 f_equal.
  - apply Z.ltb_lt in Hlt. lia.
  - apply Z.ltb_ge in Hlt. lia.
Qed.

(** X20. [applyMessageDelay] spaces the sends of a channel: when a send
    time [t] is recorded for the channel, the call returns at a time that is
    at least [t + 1000] ms, namely at [max(now, t + 1000)], and changes
    nothing but the clock. *)
Theorem applyMessageDelay_spaces_sends (channelId : string) (w : World) (t : Z) :
  lastMessageTime w !! channelId = Some t ->
  t <> 0 ->
  exists w',
    applyMessageDelay channelId w = (w', Ok tt)
    /\ clock w' = Z.max (clock w) (t + 1000)
    /\ t + 1000 <= clock w'
    /\ w' = set_clock (fun _ => clock w') w.
Proof.
  intros Ht Hnz. rewrite applyMessageDelay_effect, Ht.
  apply Z.eqb_neq in Hnz. rewrite Hnz.
  eexists. split; [reflexivity|]. cbn. unfold MIN_DELAY_MS.
  repeat split; lia.
Qed.

(** [sendTextMessage] when every step succeeds. *)
Lemma sendTextMessage_success
    (channelId to text userId jid messageId : string) (s : Session) (w : World) :
  isChannelConnected w channelId = true ->
  sessions w !! channelId = Some s ->
  sock_user (socket s) = Some userId ->
  sock_onWhatsApp (socket s) (formatWhatsAppNumber to) = Ok (Some (mkOnWhatsApp true jid)) ->
  sock_sendMessage (socket s) jid text = Ok (Some messageId) ->
  exists w',
    sendTextMessage channelId to text w = (w', Ok (mkSendResult messageId jid text))
    /\ wire w' = (wire w ++ [CallOnWhatsApp channelId (formatWhatsAppNumber to);
                             CallSendMessage channelId jid text])%list
    /\ lastMessageTime w' = <[channelId := clock w']> (lastMessageTime w)
    /\ clock w' = match lastMessageTime w !! channelId with
                  | Some t => if t =? 0 then clock w
                              else Z.max (clock w) (t + MIN_DELAY_MS)
                  | None => clock w
                  end
    /\ channels w' = channels w
    /\ sessions w' = sessions w.
Proof.
  intros Hconn Hs Huser Hverify Hsend.
  unfold sendTextMessage, try_catch.
  unfold bind at 1, gets at 1. rewrite Hconn. cbn [negb].
  unfold bind at 1, gets at 1, getSocket. rewrite Hs, Huser.
  unfold bind at 1, logger at 1, modify at 1.
  unfold bind at 1. rewrite applyMessageDelay_effect.
  unfold formatWhatsAppNumberM, bind, logger, call, lift, modify, ret, throw, try_catch.
  cbn. rewrite Hverify. cbn. rewrite Hsend. cbn.
  eexists. split; [reflexivity|]. cbn.
  rewrite <- !app_assoc. auto.
Qed.

(** X21. [POST /messages/text] with all fields, a number of 10 to 15
    digits, and a connected channel whose socket has a user, confirms the
    recipient and accepts the message: the answer is 200 with the message
    id, and [to] is the JID the recipient check returned (not the formatted
    input).  Exactly two calls are made on the socket, the check of the
    formatted number and then the send to the confirmed JID; the send time
    of the channel becomes the current time, at least 1000 ms after the
    previous one. *)
Theorem post_text_delivers
    (channelId to text userId jid messageId : string) (s : Session) (w : World) :
  JsString.truthy channelId = true ->
  JsString.truthy to = true ->
  JsString.truthy text = true ->
  isValidWhatsAppNumber to = true ->
  isChannelConnected w channelId = true ->
  sessions w !! channelId = Some s ->
  sock_user (socket s) = Some userId ->
  sock_onWhatsApp (socket s) (formatWhatsAppNumber to) = Ok (Some (mkOnWhatsApp true jid)) ->
  sock_sendMessage (socket s) jid text = Ok (Some messageId) ->
  exists w',
    post_text (Some channelId) (Some to) (Some text) w
    = (w', Ok (mkReply 200 true None None
                 (Some (PayloadSent (mkSendResult messageId jid text)))))
    /\ wire w' = (wire w ++ [CallOnWhatsApp channelId (formatWhatsAppNumber to);
                            CallSendMessage channelId jid text])%list
    /\ lastMessageTime w' !! channelId = Some (clock w')
    /\ (forall t, lastMessageTime w !! channelId = Some t -> t <> 0 -> t + 1000 <= clock w').
Proof.
  intros Hid Hto Htext Hvalid Hconn Hs Huser Hverify Hsend.
  destruct (sendTextMessage_success channelId to text userId jid messageId s w
              Hconn Hs Huser Hverify Hsend)
    as (w1 & Hrun & Hwire & Hlast & Hclock & _).
  unfold post_text, falsy, field_value, try_catch, bind, gets, ret, getChannelStatus,
    logger, modify.
  rewrite Hid, Hto, Htext, Hvalid. cbn [negb orb].
  destruct (channels w !! channelId) as [c|] eqn:Hc;
    [|unfold isChannelConnected in Hconn; rewrite Hc in Hconn; discriminate].
  rewrite Hconn. cbn [negb]. rewrite Hrun.
  eexists. split; [reflexivity|]. cbn.
  split; [exact Hwire|]. split; [rewrite Hlast; apply lookup_insert_eq|].
  intros t Ht Hnz. rewrite Hclock, Ht.
  apply Z.eqb_neq in Hnz. rewrite Hnz. unfold MIN_DELAY_MS. lia.
Qed.

(** X22. When the recipient check answers that the number has no account
    (an empty answer, or [exists] false), [POST /messages/text] answers 400
    [INVALID_WHATSAPP_NUMBER]; the check is the only call made on the
    socket, so nothing is sent, and the send time of the channel is not
    updated. *)
Theorem post_text_unknown_recipient
    (channelId to text userId : string) (found : option OnWhatsApp) (s : Session) (w : World) :
  JsString.truthy channelId = true ->
  JsString.truthy to = true ->
  JsString.truthy text = true ->
  isValidWhatsAppNumber to = true ->
  isChannelConnected w channelId = true ->
  sessions w !! channelId = Some s ->
  sock_user (socket s) = Some userId ->
  sock_onWhatsApp (socket s) (formatWhatsAppNumber to) = Ok found ->
  match found with Some entry => wa_exists entry = false | None => True end ->
  exists w',
    post_text (Some channelId) (Some to) (Some text) w
    = (w', Ok (mkReply 400 false (Some "INVALID_WHATSAPP_NUMBER")
                 (Some "Número não existe no WhatsApp") None))
    /\ wire w' = (wire w ++ [CallOnWhatsApp channelId (formatWhatsAppNumber to)])%list
    /\ lastMessageTime w' = lastMessageTime w.
Proof.
  intros Hid Hto Htext Hvalid Hconn Hs Huser Hverify Hfound.
  unfold post_text, falsy, field_value, try_catch at 1.
  unfold bind at 1, gets at 1, getChannelStatus, ret.
  rewrite Hid, Hto, Htext, Hvalid. cbn [negb orb].
  destruct (channels w !! channelId) as [c|] eqn:Hc;
    [|unfold isChannelConnected in Hconn; rewrite Hc in Hconn; discriminate].
  unfold bind at 1, gets at 1. rewrite Hconn. cbn [negb].
  unfold bind at 1.
  unfold sendTextMessage, try_catch at 1.
  unfold bind at 1, gets at 1. rewrite Hconn. cbn [negb].
  unfold bind at 1, gets at 1, getSocket. rewrite Hs, Huser.
  unfold bind at 1, logger at 1, modify at 1.
  unfold bind at 1. rewrite applyMessageDelay_effect.
  unfold formatWhatsAppNumberM, bind, logger, call, lift, modify, ret, throw, try_catch.
  cbn. rewrite Hverify. cbn.
  destruct found as [[[] j]|]; [discriminate| |]; cbn;
    (eexists; split; [reflexivity|]); cbn; rewrite <- ?app_assoc; auto.
Qed.

(** No error that leaves [sendTextMessage] carries a message containing
    [not-authorized] or [Connection Closed]. *)
Lemma sendTextMessage_screens_errors
    (channelId to text : string) (w w' : World) (e : JsError) :
  sendTextMessage channelId to text w = (w', Throw e) ->
  JsString.includes "not-authorized" (message e) = false
  /\ JsString.includes "Connection Closed" (message e) = false.
Proof.
  unfold sendTextMessage. unfold try_catch at 1.
  match goal with
  | |- (let (_, _) := ?body in _) = _ -> _ => destruct body as [w0 [r|e0]]
  | |- match ?body with _ => _ end = _ -> _ => destruct body as [w0 [r|e0]]
  end.
  - discriminate.
  - unfold bind, logger, modify, throw. cbn.
    destruct (JsString.includes "not-authorized" (message e0)
              || JsString.includes "Connection Closed" (message e0)) eqn:Hinc.
    + intros [= _ <-]. split; reflexivity.
    + intros [= _ <-]. apply orb_false_elim in Hinc. exact Hinc.
Qed.

(** X23. On a connected channel with an authenticated socket, an error
    [e] raised by the socket, in the recipient check or in the send itself,
    reaches the caller of [sendTextMessage] as [CHANNEL_NOT_CONNECTED] when
    its message contains [not-authorized] or [Connection Closed], and as
    [e] itself otherwise.  In both cases the time of the last send is not
    written, and what was called on the socket is the recipient check,
    followed by the send only when it is the send that failed. *)
Theorem sendTextMessage_hides_transport_errors
    (channelId to text userId : string) (s : Session) (w : World) (e : JsError) :
  isChannelConnected w channelId = true ->
  sessions w !! channelId = Some s ->
  sock_user (socket s) = Some userId ->
  sock_onWhatsApp (socket s) (formatWhatsAppNumber to) = Throw e
  \/ (exists jid,
        sock_onWhatsApp (socket s) (formatWhatsAppNumber to)
        = Ok (Some (mkOnWhatsApp true jid))
        /\ sock_sendMessage (socket s) jid text = Throw e) ->
  exists w',
    sendTextMessage channelId to text w
    = (w', Throw (if JsString.includes "not-authorized" (message e)
                     || JsString.includes "Connection Closed" (message e)
                  then mkError "CHANNEL_NOT_CONNECTED"
                  else e))
    /\ lastMessageTime w' = lastMessageTime w
    /\ wire w'
       = (wire w
          ++ CallOnWhatsApp channelId (formatWhatsAppNumber to)
             :: match sock_onWhatsApp (socket s) (formatWhatsAppNumber to) with
                | Ok (Some r) => [CallSendMessage channelId (wa_jid r) text]
                | _ => []
                end)%list.
Proof.
  intros Hconn Hs Huser Hfail.
  unfold sendTextMessage, try_catch at 1.
  unfold bind at 1, gets at 1. rewrite Hconn. cbn [negb].
  unfold bind at 1, gets at 1, getSocket. rewrite Hs, Huser.
  unfold bind at 1, logger at 1, modify at 1.
  unfold bind at 1. rewrite applyMessageDelay_effect.
  unfold formatWhatsAppNumberM, bind, logger, call, lift, modify, ret, throw, try_catch.
  cbn.
  destruct Hfail as [Hcheck|(jid & Hcheck & Hsend)]; rewrite Hcheck; cbn;
    rewrite ?Hsend; cbn;
    destruct (JsString.includes "not-authorized" (message e)
              || JsString.includes "Connection Closed" (message e));
    (eexists; split; [reflexivity|]); cbn; rewrite <- ?app_assoc; auto.
Qed.

(** X24. [checkNumber] never throws.  It reports [exists] only when the
    channel is connected, has a session, and the recipient check on the
    formatted number answered with an entry whose [exists] is true; on a
    channel that is not connected it answers [{ exists: false, jid: null }]
    without calling a socket. *)
Theorem checkNumber_never_throws (channelId number : string) (w : World) :
  exists w' r,
    checkNumber channelId number w = (w', Ok r)
    /\ (cr_exists r = true ->
        isChannelConnected w channelId = true
        /\ exists s entry,
             sessions w !! channelId = Some s
             /\ sock_onWhatsApp (socket s) (formatWhatsAppNumber number) = Ok (Some entry)
             /\ wa_exists entry = true)
    /\ (isChannelConnected w channelId = false ->
        r = mkCheckResult false None /\ wire w' = wire w).
Proof.
  unfold checkNumber, formatWhatsAppNumberM, getSocket, try_catch, bind, gets,
    call, lift, logger, throw, ret, modify.
  destruct (isChannelConnected w channelId) eqn:Hconn; cbn.
  - destruct (sessions w !! channelId) as [s|] eqn:Hs; cbn.
    + destruct (sock_onWhatsApp (socket s) (formatWhatsAppNumber number))
        as [[entry|]|e] eqn:Hverify; cbn;
        eexists _, _; (split; [reflexivity|]); cbn;
        (split; [|discriminate]); try discriminate.
      intros Hexists. split; [reflexivity|]. eauto.
    + eexists _, _. split; [reflexivity|]. cbn. split; discriminate.
  - eexists _, _. split; [reflexivity|]. cbn. split; [discriminate|auto].
Qed.

(** ** File types and base64 payloads *)

Lemma includes_string_In (x : string) (array : list string) :
  includes_string x array = true -> In x array.
Proof.
  unfold includes_string. intros H.
  apply existsb_exists in H as (y & Hy & Heq).
  apply String.eqb_eq in Heq. now subst.
Qed.

(** X25. The extension lists of [isImageType], [isVideoType] and
    [isAudioType] are pairwise disjoint, so the order of the tests that
    build [messageContent] does not matter; and whenever [getMimeType] knows
    the extension (its answer is not the default
    [application/octet-stream]), the family of the MIME type it gives
    (image, video, audio, or none of them) is the one the three tests
    assign. *)
Theorem media_tables_agree (extension : string) :
  isImageType extension && isVideoType extension = false
  /\ isImageType extension && isAudioType extension = false
  /\ isVideoType extension && isAudioType extension = false
  /\ (getMimeType extension <> "application/octet-stream" ->
      isImageType extension = String.prefix "image/" (getMimeType extension)
      /\ isVideoType extension = String.prefix "video/" (getMimeType extension)
      /\ isAudioType extension = String.prefix "audio/" (getMimeType extension)).
Proof.
  split; [|split; [|split]].
  - destruct (isImageType extension) eqn:Hi; [|reflexivity].
    apply includes_string_In in Hi. cbn in Hi.
    repeat (destruct Hi as [<-|Hi]; [reflexivity|]). destruct Hi.
  - destruct (isImageType extension) eqn:Hi; [|reflexivity].
    apply includes_string_In in Hi. cbn in Hi.
    repeat (destruct Hi as [<-|Hi]; [reflexivity|]). destruct Hi.
  - destruct (isVideoType extension) eqn:Hv; [|reflexivity].
    apply includes_string_In in Hv. cbn in Hv.
    repeat (destruct Hv as [<-|Hv]; [reflexivity|]). destruct Hv.
  - unfold getMimeType, mimeTypes. cbn [property].
    repeat (match goal with
            | |- context [String.eqb extension ?k] =>
                destruct (String.eqb_spec extension k) as [->|?]
            end; cbn iota;
            [intros _; split; [|split]; reflexivity|]).
    intros Hknown. contradiction.
Qed.

Lemma after_media_type_run (mime rest : string) :
  ~ In ";"%char (list_ascii_of_string mime) ->
  after_media_type (mime ++ String ";" rest) = (String.length mime, String ";" rest).
Proof.
  induction mime as [|c mime IH]; intros Hno.
  - reflexivity.
  - rewrite FormatNumber.append_cons. cbn [after_media_type String.length].
    destruct (Ascii.eqb_spec c ";") as [->|Hc].
    + exfalso. apply Hno. cbn. auto.
    + rewrite IH; [reflexivity|]. intros Hin. apply Hno. cbn. auto.
Qed.

(** X26. [base64ToBuffer] decodes exactly the payload of a data URL: for a
    media type that is not empty and has no semicolon, the prefix
    [data:<type>;base64,] is removed and whatever follows, whatever it
    contains, is what the decoder receives. *)
Theorem base64ToBuffer_decodes_payload
    {Buffer : Type} (decode : string -> Buffer) (mime payload : string) :
  mime <> EmptyString ->
  ~ In ";"%char (list_ascii_of_string mime) ->
  base64ToBuffer decode ("data:" ++ mime ++ ";base64," ++ payload) = decode payload.
Proof.
  intros Hne Hno.
  unfold base64ToBuffer, strip_data_url_prefix. f_equal.
  change (JsString.startsWith "data:" ("data:" ++ mime ++ ";base64," ++ payload)) with true.
  cbn iota.
  change (drop_string 5 ("data:" ++ mime ++ ";base64," ++ payload))
    with (mime ++ String ";" ("base64," ++ payload)).
  rewrite (after_media_type_run mime _ Hno).
  destruct mime as [|c mime]; [contradiction|].
  reflexivity.
Qed.

(** ** The log of a channel *)

(** X27. For [maxLines >= 1], [getChannelLogs] returns the last
    [maxLines] of today's lines that contain the tag [[CANAL:<id>]], in
    their order, or all of them when there are fewer. *)
Theorem getChannelLogs_last_lines (todayLogs : list string) (channelId : string) (maxLines : Z) :
  1 <= maxLines ->
  let tagged := List.filter (JsString.includes ("[CANAL:" ++ channelId ++ "]")) todayLogs in
  getChannelLogs todayLogs channelId maxLines
  = drop (List.length tagged - Z.to_nat maxLines) tagged
  /\ List.length (getChannelLogs todayLogs channelId maxLines)
     = Nat.min (List.length tagged) (Z.to_nat maxLines).
Proof.
  intros Hmax tagged.
  assert (getChannelLogs todayLogs channelId maxLines
          = drop (List.length tagged - Z.to_nat maxLines) tagged) as Heq.
  { unfold getChannelLogs, slice_from. fold tagged.
    assert ((- maxLines <? 0) = true) as -> by (apply Z.ltb_lt; lia).
    f_equal. lia. }
  split; [exact Heq|].
  rewrite Heq, length_drop. lia.
Qed.

(** X28. With [maxLines] 0 the method does not return an empty list: the
    slice starts at [-0], that is at the beginning, and every tagged line of
    the day is returned. *)
Theorem getChannelLogs_zero_returns_all (todayLogs : list string) (channelId : string) :
  getChannelLogs todayLogs channelId 0
  = List.filter (JsString.includes ("[CANAL:" ++ channelId ++ "]")) todayLogs.
Proof.
  unfold getChannelLogs, slice_from. cbn [Z.opp Z.ltb Z.compare].
  rewrite Z.min_l by lia. reflexivity.
Qed.

(** ** The API key middleware *)

Lemma API_KEY_truthy (env : option string) : JsString.truthy (API_KEY env) = true.
Proof.
  unfold API_KEY. destruct env as [k|]; [|reflexivity].
  destruct (JsString.truthy k) eqn:Hk; [exact Hk|reflexivity].
Qed.

(** X29. The middleware never throws, and it calls [next()] exactly for
    the two public paths and for requests that present the configured key,
    either in [x-api-key] or, when that header is missing or empty, in
    [authorization] with its first [Bearer ] removed.  Every other request
    is answered 401, and the maps of the manager are not touched. *)
Theorem authenticate_lets_through (env : option string) (req : Request) (w : World) :
  exists w' p,
    authenticate env req w = (w', Ok p)
    /\ (p = Next <->
        includes_string (req_path req) ["/"; "/health"] = true
        \/ presented_key req = Some (API_KEY env))
    /\ (p <> Next -> exists r, p = Answered r /\ reply_status r = 401)
    /\ sessions w' = sessions w
    /\ channels w' = channels w
    /\ wire w' = wire w.
Proof.
  pose proof (API_KEY_truthy env) as Hkey.
  unfold authenticate, bind, logger, modify, ret.
  destruct (includes_string (req_path req) ["/"; "/health"]) eqn:Hpublic.
  - eexists _, _. split; [reflexivity|]. repeat split; auto. intros []. reflexivity.
  - destruct (presented_key req) as [k|] eqn:Hk; cbn [falsy field_value].
    + destruct (JsString.truthy k) eqn:Htruthy; cbn [negb].
      * destruct (String.eqb_spec k (API_KEY env)) as [->|Hne]; cbn [negb].
        -- eexists _, _. split; [reflexivity|]. repeat split; auto. intros []. reflexivity.
        -- eexists _, _. split; [reflexivity|]. cbn.
           repeat split; auto; try discriminate.
           ++ intros [Hp|[= Hp]]; [discriminate|contradiction].
           ++ intros _. eexists. split; reflexivity.
      * eexists _, _. split; [reflexivity|].
        repeat split; auto; try discriminate.
        -- intros [Hp|[= Hp]]; [discriminate|]. subst k. congruence.
        -- intros _. eexists. split; reflexivity.
    + eexists _, _. split; [reflexivity|].
      repeat split; auto; try discriminate.
      * intros [Hp|Hp]; discriminate.
      * intros _. eexists. split; reflexivity.
Qed.

(** X30. A request with no [x-api-key] whose [authorization] header is
    [Bearer ] followed by the configured key passes the middleware, on
    every path. *)
Theorem authenticate_accepts_bearer (env : option string) (path : string) (w : World) :
  authenticate env (mkRequest path None (Some ("Bearer " ++ API_KEY env))) w = (w, Ok Next).
Proof.
  unfold authenticate, ret. cbn [req_path].
  destruct (includes_string path ["/"; "/health"]); [reflexivity|].
  unfold presented_key. cbn [req_x_api_key req_authorization fmap option_fmap option_map].
  change (remove_first "Bearer " ("Bearer " ++ API_KEY env)) with (API_KEY env).
  cbn [falsy field_value]. rewrite API_KEY_truthy. cbn [negb].
  rewrite String.eqb_refl. reflexivity.
Qed.

(** ** Witnesses of the further properties *)

Ltac evaluate :=
  first [ reflexivity | discriminate | lia
        | vm_compute; first [reflexivity | discriminate | lia] ].

Lemma handler_touches_one_channel_witness :
  let P := Sample.provider in
  let channelId := "acme" in
  let update := Sample.close_event (Some 428) in
  let w := Sample.live (Sample.a_socket (Ok tt)) 0 in
  let j := "other" in
  (j <> channelId)
  /\
  (let w' := (handleConnectionUpdate P channelId update w).1 in
    channels w' !! j = channels w !! j
    /\ sessions w' !! j = sessions w !! j
    /\ qrPromises w' !! j = qrPromises w !! j
    /\ (forall t, In t (timers w') -> In t (timers w) \/ timer_channel t = channelId)).
Proof.
  intros P channelId update w j.
  assert (j <> channelId) as Hyp0
    by (evaluate).
  split; [exact Hyp0|].
  apply (handler_touches_one_channel P channelId update w j); assumption.
Defined.

Lemma qrCode_cleared_only_by_open_witness :
  let P := Sample.provider in
  let channelId := "acme" in
  let update := Sample.close_event (Some loggedOut) in
  let w := Sample.live (Sample.a_socket (Ok tt)) 0 in
  let c := mkChannel CONNECTED QrNull 0 (Some 0) in
  (channels w !! channelId = Some c)
  /\
  (qr update = None)
  /\
  (connection update <> Some ConnOpen)
  /\
  (exists w' c',
      handleConnectionUpdate P channelId update w = (w', Ok tt)
      /\ channels w' !! channelId = Some c'
      /\ qrCode c' = qrCode c).
Proof.
  intros P channelId update w c.
  assert (channels w !! channelId = Some c) as Hyp0
    by (evaluate).
  assert (qr update = None) as Hyp1
    by (evaluate).
  assert (connection update <> Some ConnOpen) as Hyp2
    by (evaluate).
  split; [exact Hyp0|].
  split; [exact Hyp1|].
  split; [exact Hyp2|].
  apply (qrCode_cleared_only_by_open P channelId update w c); assumption.
Defined.

Lemma qr_event_publishes_code_witness :
  let P := Sample.provider in
  let channelId := "acme" in
  let q := "1@XYZ" in
  let url := "data:image/png;base64,1@XYZ" in
  let update := mkUpdate None None (Some "1@XYZ") in
  let w := Fixture.pairing in
  (qr update = Some q)
  /\
  (JsString.truthy q = true)
  /\
  (toDataURL P q = Ok url)
  /\
  (connection update = None)
  /\
  (exists w',
      handleConnectionUpdate P channelId update w = (w', Ok tt)
      /\ channels w' !! channelId
         = Some (mkChannel QRCODE (QrData url) (clock w)
                   (prior_attempts (channels w !! channelId)))
      /\ qrPromises w' !! channelId = settle Resolved <$> qrPromises w !! channelId
      /\ sessions w' = sessions w
      /\ timers w' = timers w).
Proof.
  intros P channelId q url update w.
  assert (qr update = Some q) as Hyp0
    by (evaluate).
  assert (JsString.truthy q = true) as Hyp1
    by (evaluate).
  assert (toDataURL P q = Ok url) as Hyp2
    by (evaluate).
  assert (connection update = None) as Hyp3
    by (evaluate).
  split; [exact Hyp0|].
  split; [exact Hyp1|].
  split; [exact Hyp2|].
  split; [exact Hyp3|].
  apply (qr_event_publishes_code P channelId q url update w); assumption.
Defined.

Lemma qr_encode_failure_absorbed_witness :
  let P := Fixture.no_encoder in
  let channelId := "acme" in
  let q := "1@XYZ" in
  let e := mkError "bad payload" in
  let update := mkUpdate None None (Some "1@XYZ") in
  let w := Fixture.pairing in
  (qr update = Some q)
  /\
  (JsString.truthy q = true)
  /\
  (toDataURL P q = Throw e)
  /\
  (connection update = None)
  /\
  (exists w',
      handleConnectionUpdate P channelId update w = (w', Ok tt)
      /\ channels w' = channels w
      /\ qrPromises w' !! channelId = settle (Rejected e) <$> qrPromises w !! channelId
      /\ sessions w' = sessions w
      /\ timers w' = timers w).
Proof.
  intros P channelId q e update w.
  assert (qr update = Some q) as Hyp0
    by (evaluate).
  assert (JsString.truthy q = true) as Hyp1
    by (evaluate).
  assert (toDataURL P q = Throw e) as Hyp2
    by (evaluate).
  assert (connection update = None) as Hyp3
    by (evaluate).
  split; [exact Hyp0|].
  split; [exact Hyp1|].
  split; [exact Hyp2|].
  split; [exact Hyp3|].
  apply (qr_encode_failure_absorbed P channelId q e update w); assumption.
Defined.

Lemma consecutive_closes_witness :
  let P := Sample.provider in
  let channelId := "acme" in
  let code := Some 428 in
  let k := 3%nat in
  let w := Sample.live (Sample.a_socket (Ok tt)) 0 in
  let n := 0 in
  (code <> Some loggedOut)
  /\
  (currentAttempts w channelId = n)
  /\
  (0 <= n)
  /\
  (n + Z.of_nat k <= 5)
  /\
  ((0 < k)%nat)
  /\
  (exists w' c,
      deliver P (repeat (channelId, mkUpdate (Some ConnClose) code None) k) w = (w', Ok tt)
      /\ channels w' !! channelId = Some c
      /\ status c = RECONNECTING
      /\ reconnectAttempts c = Some (n + Z.of_nat k)
      /\ timers w'
         = (timers w
            ++ List.map (fun i => mkTimer (3000 * 2 ^ (n + Z.of_nat i)) channelId) (seq 0 k))%list).
Proof.
  intros P channelId code k w n.
  assert (code <> Some loggedOut) as Hyp0
    by (evaluate).
  assert (currentAttempts w channelId = n) as Hyp1
    by (evaluate).
  assert (0 <= n) as Hyp2
    by (evaluate).
  assert (n + Z.of_nat k <= 5) as Hyp3
    by (evaluate).
  assert ((0 < k)%nat) as Hyp4
    by (cbn; lia).
  split; [exact Hyp0|].
  split; [exact Hyp1|].
  split; [exact Hyp2|].
  split; [exact Hyp3|].
  split; [exact Hyp4|].
  apply (consecutive_closes P channelId code k w n); assumption.
Defined.

Lemma bounds_hold_in_every_run_witness :
  let P := Sample.provider in
  let actions := [ActCreateStart "acme"; ActEvent "acme" (Sample.close_event (Some 428)); ActTimer (mkTimer 3000 "acme"); ActClose "acme"] in
  let w := Sample.fresh in
  (attempts_bounded w)
  /\
  (delays_in_table w)
  /\
  (attempts_bounded (run P actions w) /\ delays_in_table (run P actions w)).
Proof.
  intros P actions w.
  assert (attempts_bounded w) as Hyp0
    by (intros j c n Hj; cbn in Hj; rewrite lookup_empty in Hj; discriminate).
  assert (delays_in_table w) as Hyp1
    by (intros t []).
  split; [exact Hyp0|].
  split; [exact Hyp1|].
  apply (bounds_hold_in_every_run P actions w); assumption.
Defined.

Lemma initializeSession_releases_guard_witness :
  let P := Fixture.offline in
  let channelId := "acme" in
  let forceNew := true in
  let w := Sample.fresh in
  (channelId ∉ connectingChannels w)
  /\
  (connectingChannels (initializeSession P channelId forceNew w).1 = connectingChannels w).
Proof.
  intros P channelId forceNew w.
  assert (channelId ∉ connectingChannels w) as Hyp0
    by (cbn; apply not_elem_of_empty).
  split; [exact Hyp0|].
  apply (initializeSession_releases_guard P channelId forceNew w); assumption.
Defined.




Lemma closeChannel_removes_only_the_records_witness :
  let channelId := "acme" in
  let w := Sample.live (Sample.a_socket (Ok tt)) 0 in
  ((forall s, sessions w !! channelId = Some s -> sock_logout (socket s) = Ok tt))
  /\
  (exists w',
      closeChannel channelId w = (w', Ok tt)
      /\ sessions w' = delete channelId (sessions w)
      /\ channels w' = delete channelId (channels w)
      /\ timers w' = timers w
      /\ authStore w' = authStore w
      /\ channelDirs w' = channelDirs w
      /\ qrPromises w' = qrPromises w
      /\ connectingChannels w' = connectingChannels w).
Proof.
  intros channelId w.
  assert ((forall s, sessions w !! channelId = Some s -> sock_logout (socket s) = Ok tt)) as Hyp0
    by (intros s Hs; vm_compute in Hs; injection Hs as <-; reflexivity).
  split; [exact Hyp0|].
  apply (closeChannel_removes_only_the_records channelId w); assumption.
Defined.

Lemma stale_timer_brings_session_back_witness :
  let P := Sample.provider in
  let t := mkTimer 3000 "acme" in
  let version := "2.3000.1" in
  let sk := Sample.a_socket (Ok tt) in
  let w := set_timers (fun _ => [mkTimer 3000 "acme"]) (Sample.live (Sample.a_socket (Ok tt)) 1) in
  (In t (timers w))
  /\
  ((forall s, sessions w !! timer_channel t = Some s -> sock_logout (socket s) = Ok tt))
  /\
  (timer_channel t ∉ connectingChannels w)
  /\
  (useMultiFileAuthState P (timer_channel t) = Ok tt)
  /\
  (fetchLatestBaileysVersion P = Ok version)
  /\
  (makeWASocket P (timer_channel t) = Ok sk)
  /\
  (exists w1 w2,
      closeChannel (timer_channel t) w = (w1, Ok tt)
      /\ In t (timers w1)
      /\ fire P t w1 = (w2, Ok tt)
      /\ channels w2 !! timer_channel t = None
      /\ sessions w2 !! timer_channel t = Some (mkSession sk (timer_channel t))).
Proof.
  intros P t version sk w.
  assert (In t (timers w)) as Hyp0
    by (left; reflexivity).
  assert ((forall s, sessions w !! timer_channel t = Some s -> sock_logout (socket s) = Ok tt)) as Hyp1
    by (intros s Hs; vm_compute in Hs; injection Hs as <-; reflexivity).
  assert (timer_channel t ∉ connectingChannels w) as Hyp2
    by (cbn; apply not_elem_of_empty).
  assert (useMultiFileAuthState P (timer_channel t) = Ok tt) as Hyp3
    by (evaluate).
  assert (fetchLatestBaileysVersion P = Ok version) as Hyp4
    by (evaluate).
  assert (makeWASocket P (timer_channel t) = Ok sk) as Hyp5
    by (evaluate).
  split; [exact Hyp0|].
  split; [exact Hyp1|].
  split; [exact Hyp2|].
  split; [exact Hyp3|].
  split; [exact Hyp4|].
  split; [exact Hyp5|].
  apply (stale_timer_brings_session_back P t version sk w); assumption.
Defined.

Lemma createChannel_on_existing_id_witness :
  let P := Sample.provider in
  let channelId := "acme" in
  let during := @nil Action in
  let outcome := TimedOut in
  let w := Fixture.pairing in
  let c := mkChannel CREATED QrNull 0 None in
  (channels w !! channelId = Some c)
  /\
  (createChannel P channelId during outcome w
    = (set_qrPromises (delete channelId)
         (set_log (fun l => (l ++ [mkLog LError ("Erro ao criar canal " ++ channelId ++ ":")
                                     (Some "Canal já existe")])%list) w),
       Throw (mkError "Canal já existe"))).
Proof.
  intros P channelId during outcome w c.
  assert (channels w !! channelId = Some c) as Hyp0
    by (evaluate).
  split; [exact Hyp0|].
  apply (createChannel_on_existing_id P channelId during outcome w c); assumption.
Defined.

Lemma createChannel_resume_ignores_outcome_witness :
  let channelId := "acme" in
  let o := QrRejected (mkError "bad payload") in
  let w := Fixture.pairing in
  let c := mkChannel CREATED QrNull 0 None in
  (channels w !! channelId = Some c)
  /\
  (exists w',
      createChannel_resume channelId o w
      = (w', Ok {| cd_channelId := channelId;
                   cd_status := Some (status c);
                   cd_qrCode := qrCode c |})
      /\ qrPromises w' = delete channelId (qrPromises w)
      /\ channels w' = channels w
      /\ sessions w' = sessions w
      /\ log w' = (log w ++ match o with
                            | QrResolved => []
                            | _ => [mkLog LWarn ("Timeout aguardando QR Code para "
                                                 ++ channelId) None]
                            end)%list).
Proof.
  intros channelId o w c.
  assert (channels w !! channelId = Some c) as Hyp0
    by (evaluate).
  split; [exact Hyp0|].
  apply (createChannel_resume_ignores_outcome channelId o w c); assumption.
Defined.


Lemma restoreSession_restores_witness :
  let P := Sample.provider in
  let channelId := "acme" in
  let version := "2.3000.1" in
  let sk := Sample.a_socket (Ok tt) in
  let w := Fixture.recorded LOGGED_OUT in
  (isChannelConnected w channelId = false)
  /\
  (channelId ∈ channelDirs w)
  /\
  (channelId ∉ connectingChannels w)
  /\
  (useMultiFileAuthState P channelId = Ok tt)
  /\
  (fetchLatestBaileysVersion P = Ok version)
  /\
  (makeWASocket P channelId = Ok sk)
  /\
  (exists w',
      restoreSession P channelId w
      = (w', Ok (Some {| cd_channelId := channelId;
                         cd_status := Some RESTORING;
                         cd_qrCode := QrUndefined |}))
      /\ channels w' !! channelId = Some (mkChannel RESTORING QrNull (clock w) None)
      /\ sessions w' !! channelId = Some (mkSession sk channelId)
      /\ authStore w' !! channelId
         = Some (match authStore w !! channelId with Some b => b | None => false end)).
Proof.
  intros P channelId version sk w.
  assert (isChannelConnected w channelId = false) as Hyp0
    by (evaluate).
  assert (channelId ∈ channelDirs w) as Hyp1
    by (cbn; now apply elem_of_singleton).
  assert (channelId ∉ connectingChannels w) as Hyp2
    by (cbn; apply not_elem_of_empty).
  assert (useMultiFileAuthState P channelId = Ok tt) as Hyp3
    by (evaluate).
  assert (fetchLatestBaileysVersion P = Ok version) as Hyp4
    by (evaluate).
  assert (makeWASocket P channelId = Ok sk) as Hyp5
    by (evaluate).
  split; [exact Hyp0|].
  split; [exact Hyp1|].
  split; [exact Hyp2|].
  split; [exact Hyp3|].
  split; [exact Hyp4|].
  split; [exact Hyp5|].
  apply (restoreSession_restores P channelId version sk w); assumption.
Defined.

Lemma post_channels_refuses_without_effect_witness :
  let P := Sample.provider in
  let channelId := Some "acme" in
  let during := [ActEvent "acme" Sample.open_event] in
  let outcome := QrResolved in
  let w := Fixture.pairing in
  (falsy channelId = true \/ is_Some (channels w !! field_value channelId))
  /\
  (exists r,
      post_channels P channelId during outcome w = (w, Ok r)
      /\ reply_success r = false
      /\ (falsy channelId = true ->
          r = mkReply 400 false (Some "MISSING_CHANNEL_ID")
                (Some "channelId é obrigatório") None)
      /\ (falsy channelId = false ->
          exists c, channels w !! field_value channelId = Some c
            /\ r = mkReply 409 false (Some "CHANNEL_ALREADY_EXISTS")
                     (Some "Canal já existe")
                     (Some (PayloadStatus (field_value channelId) c)))).
Proof.
  intros P channelId during outcome w.
  assert (falsy channelId = true \/ is_Some (channels w !! field_value channelId)) as Hyp0
    by (right; exists (mkChannel CREATED QrNull 0 None); vm_compute; reflexivity).
  split; [exact Hyp0|].
  apply (post_channels_refuses_without_effect P channelId during outcome w); assumption.
Defined.

Lemma post_text_refuses_without_effect_witness :
  let channelId := Some "acme" in
  let to := Some "123" in
  let text := Some "oi" in
  let w := Sample.live (Sample.a_socket (Ok tt)) 0 in
  (falsy channelId || falsy to || falsy text
    || negb (isValidWhatsAppNumber (field_value to))
    || negb (isChannelConnected w (field_value channelId)) = true)
  /\
  (exists r,
      post_text channelId to text w = (w, Ok r)
      /\ reply_success r = false
      /\ reply_data r = None
      /\ (reply_status r, reply_error r)
         = if falsy channelId || falsy to || falsy text
           then (400, Some "MISSING_REQUIRED_FIELDS")
           else if negb (isValidWhatsAppNumber (field_value to))
           then (400, Some "INVALID_NUMBER")
           else match channels w !! field_value channelId with
                | None => (404, Some "CHANNEL_NOT_FOUND")
                | Some _ => (400, Some "CHANNEL_NOT_CONNECTED")
                end).
Proof.
  intros channelId to text w.
  assert (falsy channelId || falsy to || falsy text
    || negb (isValidWhatsAppNumber (field_value to))
    || negb (isChannelConnected w (field_value channelId)) = true) as Hyp0
    by (evaluate).
  split; [exact Hyp0|].
  apply (post_text_refuses_without_effect channelId to text w); assumption.
Defined.

Lemma applyMessageDelay_spaces_sends_witness :
  let channelId := "acme" in
  let w := Fixture.busy in
  let t := 50 in
  (lastMessageTime w !! channelId = Some t)
  /\
  (t <> 0)
  /\
  (exists w',
      applyMessageDelay channelId w = (w', Ok tt)
      /\ clock w' = Z.max (clock w) (t + 1000)
      /\ t + 1000 <= clock w'
      /\ w' = set_clock (fun _ => clock w') w).
Proof.
  intros channelId w t.
  assert (lastMessageTime w !! channelId = Some t) as Hyp0
    by (evaluate).
  assert (t <> 0) as Hyp1
    by (evaluate).
  split; [exact Hyp0|].
  split; [exact Hyp1|].
  apply (applyMessageDelay_spaces_sends channelId w t); assumption.
Defined.

Lemma post_text_delivers_witness :
  let channelId := "acme" in
  let to := "(11) 99999-0000" in
  let text := "oi" in
  let userId := "5511999990000:1@s.whatsapp.net" in
  let jid := "5511999990000@s.whatsapp.net" in
  let messageId := "3EB0" in
  let s := mkSession (Sample.a_socket (Ok tt)) "acme" in
  let w := Fixture.busy in
  (JsString.truthy channelId = true)
  /\
  (JsString.truthy to = true)
  /\
  (JsString.truthy text = true)
  /\
  (isValidWhatsAppNumber to = true)
  /\
  (isChannelConnected w channelId = true)
  /\
  (sessions w !! channelId = Some s)
  /\
  (sock_user (socket s) = Some userId)
  /\
  (sock_onWhatsApp (socket s) (formatWhatsAppNumber to) = Ok (Some (mkOnWhatsApp true jid)))
  /\
  (sock_sendMessage (socket s) jid text = Ok (Some messageId))
  /\
  (exists w',
      post_text (Some channelId) (Some to) (Some text) w
      = (w', Ok (mkReply 200 true None None
                   (Some (PayloadSent (mkSendResult messageId jid text)))))
      /\ wire w' = (wire w ++ [CallOnWhatsApp channelId (formatWhatsAppNumber to);
                              CallSendMessage channelId jid text])%list
      /\ lastMessageTime w' !! channelId = Some (clock w')
      /\ (forall t, lastMessageTime w !! channelId = Some t -> t <> 0 -> t + 1000 <= clock w')).
Proof.
  intros channelId to text userId jid messageId s w.
  assert (JsString.truthy channelId = true) as Hyp0
    by (evaluate).
  assert (JsString.truthy to = true) as Hyp1
    by (evaluate).
  assert (JsString.truthy text = true) as Hyp2
    by (evaluate).
  assert (isValidWhatsAppNumber to = true) as Hyp3
    by (evaluate).
  assert (isChannelConnected w channelId = true) as Hyp4
    by (evaluate).
  assert (sessions w !! channelId = Some s) as Hyp5
    by (evaluate).
  assert (sock_user (socket s) = Some userId) as Hyp6
    by (evaluate).
  assert (sock_onWhatsApp (socket s) (formatWhatsAppNumber to) = Ok (Some (mkOnWhatsApp true jid))) as Hyp7
    by (evaluate).
  assert (sock_sendMessage (socket s) jid text = Ok (Some messageId)) as Hyp8
    by (evaluate).
  split; [exact Hyp0|].
  split; [exact Hyp1|].
  split; [exact Hyp2|].
  split; [exact Hyp3|].
  split; [exact Hyp4|].
  split; [exact Hyp5|].
  split; [exact Hyp6|].
  split; [exact Hyp7|].
  split; [exact Hyp8|].
  apply (post_text_delivers channelId to text userId jid messageId s w); assumption.
Defined.

Lemma post_text_unknown_recipient_witness :
  let channelId := "acme" in
  let to := "(11) 99999-0000" in
  let text := "oi" in
  let userId := "5511999990000:1@s.whatsapp.net" in
  let found := @None OnWhatsApp in
  let s := mkSession Fixture.unknown_recipient "acme" in
  let w := Sample.live Fixture.unknown_recipient 0 in
  (JsString.truthy channelId = true)
  /\
  (JsString.truthy to = true)
  /\
  (JsString.truthy text = true)
  /\
  (isValidWhatsAppNumber to = true)
  /\
  (isChannelConnected w channelId = true)
  /\
  (sessions w !! channelId = Some s)
  /\
  (sock_user (socket s) = Some userId)
  /\
  (sock_onWhatsApp (socket s) (formatWhatsAppNumber to) = Ok found)
  /\
  (match found with Some entry => wa_exists entry = false | None => True end)
  /\
  (exists w',
      post_text (Some channelId) (Some to) (Some text) w
      = (w', Ok (mkReply 400 false (Some "INVALID_WHATSAPP_NUMBER")
                   (Some "Número não existe no WhatsApp") None))
      /\ wire w' = (wire w ++ [CallOnWhatsApp channelId (formatWhatsAppNumber to)])%list
      /\ lastMessageTime w' = lastMessageTime w).
Proof.
  intros channelId to text userId found s w.
  assert (JsString.truthy channelId = true) as Hyp0
    by (evaluate).
  assert (JsString.truthy to = true) as Hyp1
    by (evaluate).
  assert (JsString.truthy text = true) as Hyp2
    by (evaluate).
  assert (isValidWhatsAppNumber to = true) as Hyp3
    by (evaluate).
  assert (isChannelConnected w channelId = true) as Hyp4
    by (evaluate).
  assert (sessions w !! channelId = Some s) as Hyp5
    by (evaluate).
  assert (sock_user (socket s) = Some userId) as Hyp6
    by (evaluate).
  assert (sock_onWhatsApp (socket s) (formatWhatsAppNumber to) = Ok found) as Hyp7
    by (evaluate).
  assert (match found with Some entry => wa_exists entry = false | None => True end) as Hyp8
    by (exact I).
  split; [exact Hyp0|].
  split; [exact Hyp1|].
  split; [exact Hyp2|].
  split; [exact Hyp3|].
  split; [exact Hyp4|].
  split; [exact Hyp5|].
  split; [exact Hyp6|].
  split; [exact Hyp7|].
  split; [exact Hyp8|].
  apply (post_text_unknown_recipient channelId to text userId found s w); assumption.
Defined.

Lemma sendTextMessage_hides_transport_errors_witness :
  let channelId := "acme" in
  let to := "(11) 99999-0000" in
  let text := "oi" in
  let userId := "5511999990000:1@s.whatsapp.net" in
  let s := mkSession Fixture.dropped "acme" in
  let w := Sample.live Fixture.dropped 0 in
  let e := mkError "Connection Closed" in
  (isChannelConnected w channelId = true)
  /\
  (sessions w !! channelId = Some s)
  /\
  (sock_user (socket s) = Some userId)
  /\
  (sock_onWhatsApp (socket s) (formatWhatsAppNumber to) = Throw e
    \/ (exists jid,
          sock_onWhatsApp (socket s) (formatWhatsAppNumber to)
          = Ok (Some (mkOnWhatsApp true jid))
          /\ sock_sendMessage (socket s) jid text = Throw e))
  /\
  (exists w',
      sendTextMessage channelId to text w
      = (w', Throw (if JsString.includes "not-authorized" (message e)
                       || JsString.includes "Connection Closed" (message e)
                    then mkError "CHANNEL_NOT_CONNECTED"
                    else e))
      /\ lastMessageTime w' = lastMessageTime w
      /\ wire w'
         = (wire w
            ++ CallOnWhatsApp channelId (formatWhatsAppNumber to)
               :: match sock_onWhatsApp (socket s) (formatWhatsAppNumber to) with
                  | Ok (Some r) => [CallSendMessage channelId (wa_jid r) text]
                  | _ => []
                  end)%list).
Proof.
  intros channelId to text userId s w e.
  assert (isChannelConnected w channelId = true) as Hyp0
    by (evaluate).
  assert (sessions w !! channelId = Some s) as Hyp1
    by (evaluate).
  assert (sock_user (socket s) = Some userId) as Hyp2
    by (evaluate).
  assert (sock_onWhatsApp (socket s) (formatWhatsAppNumber to) = Throw e
    \/ (exists jid,
          sock_onWhatsApp (socket s) (formatWhatsAppNumber to)
          = Ok (Some (mkOnWhatsApp true jid))
          /\ sock_sendMessage (socket s) jid text = Throw e)) as Hyp3
    by (left; reflexivity).
  split; [exact Hyp0|].
  split; [exact Hyp1|].
  split; [exact Hyp2|].
  split; [exact Hyp3|].
  apply (sendTextMessage_hides_transport_errors channelId to text userId s w e); assumption.
Defined.

Lemma base64ToBuffer_decodes_payload_witness :
  let decode := fun s : string => s in
  let mime := "image/png" in
  let payload := "iVBORw0KGgo=" in
  (mime <> EmptyString)
  /\
  (~ In ";"%char (list_ascii_of_string mime))
  /\
  (base64ToBuffer decode ("data:" ++ mime ++ ";base64," ++ payload) = decode payload).
Proof.
  intros decode mime payload.
  assert (mime <> EmptyString) as Hyp0
    by (discriminate).
  assert (~ In ";"%char (list_ascii_of_string mime)) as Hyp1
    by (cbn; intuition discriminate).
  split; [exact Hyp0|].
  split; [exact Hyp1|].
  apply (base64ToBuffer_decodes_payload decode mime payload); assumption.
Defined.

Lemma getChannelLogs_last_lines_witness :
  let todayLogs := ["[CANAL:acme] POST /messages/text - 200 (12ms)"; "GET /health - 200 (1ms)"; "[CANAL:acme] POST /messages/text - 400 (3ms)"; "[CANAL:beta] GET /channels/beta/status - 200 (2ms)"; "[CANAL:acme] DELETE /channels/acme - 200 (40ms)"] in
  let channelId := "acme" in
  let maxLines := 2 in
  (1 <= maxLines)
  /\
  (let tagged := List.filter (JsString.includes ("[CANAL:" ++ channelId ++ "]")) todayLogs in
    getChannelLogs todayLogs channelId maxLines
    = drop (List.length tagged - Z.to_nat maxLines) tagged
    /\ List.length (getChannelLogs todayLogs channelId maxLines)
       = Nat.min (List.length tagged) (Z.to_nat maxLines)).
Proof.
  intros todayLogs channelId maxLines.
  assert (1 <= maxLines) as Hyp0
    by (evaluate).
  split; [exact Hyp0|].
  apply (getChannelLogs_last_lines todayLogs channelId maxLines); assumption.
Defined.
